(** * Aforro portfolio report (generate.py): model and properties

    A shallow embedding of [generate.py]: the date adjustment of
    [IGCPClient._adjust_dates], the HTTP client [IGCPClient.fetch_value],
    the number formatting of [format_number], the aggregation and the HTML
    rendering of [generate_html_report], and the fetch loop of [main].

    Python values are modelled as the interpreter has them:
    - [int] is [Z]; [float] is IEEE binary64, that is the primitive [float]
      of the Standard Library, whose operations round to nearest even as
      CPython's do;
    - an exception is a value of [exn], and a call that may raise returns
      a [result];
    - the console, the requests sent, the files written and the paths
      that the file system refuses are fields of an explicit [world] that
      is threaded through the effectful functions.

    The program is embedded twice. The first embedding reads the answers
    of the service at the types that the source declares: [fetch_value]
    returns a [Dict[str, float]], and the value fields of a
    [Subscription] are [Optional[float]]. The second one ([json] and the
    definitions named [raw_...]) follows the same lines of the source on
    answers of any JSON type, since nothing in the code checks the
    declared types: a field may then hold [None], an [int], a string.
    On answers of floats the two agree ([typed_main_is_raw_main]). *)

From Stdlib Require Import ZArith Floats String Ascii List Bool Lia DecimalString.
From Stdlib Require Import DecimalFacts DecimalPos DecimalN.
From stdpp Require Import gmap strings list.

Set Warnings "-inexact-float".
Local Open Scope Z_scope.

(** ** Python runtime: exceptions and results *)

Inductive exn : Type :=
  | ValueError
  | KeyError (key : string)
  | OverflowError
  | ZeroDivisionError
  | RequestException            (* connection error or timeout of requests *)
  | HTTPError (status : Z)      (* raised by raise_for_status *)
  | JSONDecodeError             (* raised by response.json() *)
  | FileNotFoundError           (* os.makedirs(''), open('') *)
  | IsADirectoryError           (* open() on a path that names a directory *)
  | PermissionError             (* a directory or a file that may not be written *)
  | TypeError.                  (* an operand or a subscript of the wrong type *)

Inductive result (A : Type) : Type :=
  | Ok (a : A)
  | Raise (e : exn).
Arguments Ok {A} a.
Arguments Raise {A} e.

Definition is_ok {A} (r : result A) : bool :=
  match r with Ok _ => true | Raise _ => false end.

Definition result_bind {A B} (r : result A) (k : A -> result B) : result B :=
  match r with
  | Ok a => k a
  | Raise e => Raise e
  end.

(** ** datetime *)

Record datetime : Type := mk_datetime {
  year : Z;
  month : Z;
  day : Z;
  hour : Z;
  minute : Z;
  second : Z;
  microsecond : Z
}.

Definition MINYEAR : Z := 1.
Definition MAXYEAR : Z := 9999.

Definition is_leap (y : Z) : bool :=
  (y mod 4 =? 0) && (negb (y mod 100 =? 0) || (y mod 400 =? 0)).

Definition days_in_month (y m : Z) : Z :=
  if m =? 2 then (if is_leap y then 29 else 28)
  else if (m =? 4) || (m =? 6) || (m =? 9) || (m =? 11) then 30
  else 31.

Definition date_fields_ok (y m d : Z) : bool :=
  (MINYEAR <=? y) && (y <=? MAXYEAR) &&
  (1 <=? m) && (m <=? 12) &&
  (1 <=? d) && (d <=? days_in_month y m).

(** The values that the type [datetime] of Python holds. *)
Definition datetime_ok (t : datetime) : bool :=
  date_fields_ok (year t) (month t) (day t) &&
  (0 <=? hour t) && (hour t <? 24) &&
  (0 <=? minute t) && (minute t <? 60) &&
  (0 <=? second t) && (second t <? 60) &&
  (0 <=? microsecond t) && (microsecond t <? 1000000).

(** [datetime(y, m, d)]: the time of day defaults to midnight, and fields
    out of their range raise [ValueError]. *)
Definition datetime_new (y m d : Z) : result datetime :=
  if date_fields_ok y m d then Ok (mk_datetime y m d 0 0 0 0)
  else Raise ValueError.

Fixpoint lex_ltb (a b : list Z) : bool :=
  match a, b with
  | x :: a', y :: b' => (x <? y) || ((x =? y) && lex_ltb a' b')
  | [], _ :: _ => true
  | _, [] => false
  end.

Definition datetime_key (t : datetime) : list Z :=
  [year t; month t; day t; hour t; minute t; second t; microsecond t].

(** [a < b] on naive datetimes. *)
Definition datetime_ltb (a b : datetime) : bool :=
  lex_ltb (datetime_key a) (datetime_key b).

(** ** IGCPClient._adjust_dates *)

Definition _adjust_dates (date acquisition_date : datetime)
  : result (datetime * datetime) :=
  let d_day := day date in
  let a_day := day acquisition_date in
  result_bind (datetime_new (year acquisition_date) (month acquisition_date) 1)
    (fun req_acq =>
  result_bind
    (if d_day <? a_day then
       if month date =? 1 then datetime_new (year date - 1) 12 1
       else datetime_new (year date) (month date - 1) 1
     else datetime_new (year date) (month date) 1)
    (fun req_date => Ok (req_date, req_acq))).

(** *** The dates of the specification *)

(** The first day, at midnight, of month [m] of year [y]. *)
Definition first_of_month (y m : Z) : datetime := mk_datetime y m 1 0 0 0 0.

(** The first day of the calendar month before the month of [t]: December
    of the previous year when [t] is in January. *)
Definition previous_month_start (t : datetime) : datetime :=
  if month t =? 1 then first_of_month (year t - 1) 12
  else first_of_month (year t) (month t - 1).

(** The value-request date as the specification words it. *)
Definition spec_value_request (today acq : datetime) : datetime :=
  if day today <? day acq then previous_month_start today
  else first_of_month (year today) (month today).

(** What the specification says of one call of the date adjustment. *)
Definition adjusts_as_specified (today acq : datetime) : Prop :=
  _adjust_dates today acq =
    Ok (spec_value_request today acq,
        first_of_month (year acq) (month acq)).

(** Months counted from year 0: consecutive calendar months have
    consecutive indices. *)
Definition month_index (t : datetime) : Z := year t * 12 + (month t - 1).

(** ** Python numbers *)

(** A number is an [int] or a [float]; the totals and the ratio of the
    report are the [int] 0 until a [float] is added to them. *)
Inductive pynum : Type :=
  | PInt (z : Z)
  | PFloat (f : float).

(** [float(z)]: the nearest binary64 value, ties to even; an [int] that
    rounds beyond the largest finite value raises [OverflowError]. *)
Definition float_of_int (z : Z) : result float :=
  match binary_normalize prec emax z 0 false with
  | S754_infinity _ => Raise OverflowError
  | sf => Ok (SF2Prim sf)
  end.

Definition to_float (v : pynum) : result float :=
  match v with
  | PInt z => float_of_int z
  | PFloat f => Ok f
  end.

(** [bool(x)] for a float: false exactly for the two zeros. *)
Definition float_truthy (x : float) : bool := negb (PrimFloat.eqb x 0%float).

(** The condition [if v] on an [Optional[float]]: [None] and the zeros are
    false. *)
Definition opt_truthy (v : option float) : bool :=
  match v with
  | Some x => float_truthy x
  | None => false
  end.

(** [acc + x] where [x] is a float. The accumulator of [sum] is the [int] 0
    at first, and a float from the first addition on. *)
Definition py_add_float (acc : pynum) (x : float) : pynum :=
  match acc with
  | PInt z => PFloat (PrimFloat.add (SF2Prim (binary_normalize prec emax z 0 false)) x)
  | PFloat a => PFloat (PrimFloat.add a x)
  end.

(** [sum(xs)] over floats: the items are added from left to right, starting
    from the [int] 0. *)
Definition py_sum (xs : list float) : pynum := fold_left py_add_float xs (PInt 0).

(** [v > 0]. *)
Definition py_gt0 (v : pynum) : bool :=
  match v with
  | PInt z => 0 <? z
  | PFloat f => PrimFloat.ltb 0%float f
  end.



(** [v == 0] *)
Definition num_is_zero (v : pynum) : bool :=
  match v with
  | PInt z => z =? 0
  | PFloat f => PrimFloat.eqb f 0%float
  end.

(** [a / b], true division with a float on one side at least: the operands
    are converted to float, the left one first; a divisor that is zero
    raises [ZeroDivisionError], an [int] beyond the floats
    [OverflowError]. With values of the declared types the program never
    divides two [int]s: the divisor of the ratio is a float, and so is the
    dividend of the unit value. *)
Definition py_truediv (a b : pynum) : result pynum :=
  result_bind (to_float a) (fun x =>
  if num_is_zero b then Raise ZeroDivisionError
  else result_bind (to_float b) (fun y => Ok (PFloat (PrimFloat.div x y)))).

(** ** format_number *)

Definition INT_MAX : Z := 2147483647.

(** The quotient [n / d] rounded to the nearest integer, ties to even
    ([0 <= n], [0 < d]). *)
Definition round_half_even (n d : Z) : Z :=
  let q := n / d in
  let r := n mod d in
  match Z.compare (2 * r) d with
  | Lt => q
  | Gt => q + 1
  | Eq => if Z.even q then q else q + 1
  end.

(** [|x| * 10^decimals] rounded to an integer, for a finite [x] of
    mantissa [m] and exponent [e], that is [|x| = m * 2^e]. *)
Definition scaled_digits (m : positive) (e : Z) (decimals : Z) : Z :=
  if 0 <=? e then Z.pos m * 2 ^ e * 10 ^ decimals
  else round_half_even (Z.pos m * 10 ^ decimals) (2 ^ (- e)).

(** The decimal digits of a natural number. *)
Definition digits_of (n : Z) : string := NilZero.string_of_uint (N.to_uint (Z.to_N n)).

Fixpoint zeros (n : nat) : string :=
  match n with
  | O => EmptyString
  | S n' => String "0" (zeros n')
  end.

(** Left padding with zeros up to [width] characters. *)
Definition pad_zeros (width : nat) (s : string) : string :=
  zeros (width - String.length s) +:+ s.

(** A comma before every group of three digits, counted from the right:
    [rev_digits] are the digits from the least significant one. *)
Fixpoint group_rev (rev_digits : list ascii) (in_group : nat) : list ascii :=
  match rev_digits with
  | [] => []
  | c :: rest =>
      match in_group with
      | 3%nat => ","%char :: c :: group_rev rest 1
      | _ => c :: group_rev rest (S in_group)
      end
  end.

Definition thousands (s : string) : string :=
  string_of_list_ascii (rev (group_rev (rev (list_ascii_of_string s)) 0)).

(** The fixed-point text of a non-negative scaled integer [n], which
    stands for [n / 10^decimals]. *)
Definition fixed_text (n : Z) (decimals : Z) : string :=
  let int_part := thousands (digits_of (n / 10 ^ decimals)) in
  if decimals =? 0 then int_part
  else int_part +:+ "." +:+
       pad_zeros (Z.to_nat decimals) (digits_of (n mod 10 ^ decimals)).

Definition sign_text (s : bool) : string := if s then "-" else "".

(** [f"{x:,.{decimals}f}"] for a float [x] and a precision in range. *)
Definition format_float (x : float) (decimals : Z) : string :=
  match Prim2SF x with
  | S754_nan => "nan"
  | S754_infinity s => sign_text s +:+ "inf"
  | S754_zero s => sign_text s +:+ fixed_text 0 decimals
  | S754_finite s m e => sign_text s +:+ fixed_text (scaled_digits m e decimals) decimals
  end.

(** [format_number(value, decimals)]: a negative precision is not a format
    specifier and one above [INT_MAX] is refused, both with [ValueError];
    an [int] is converted to float first. *)
Definition format_number (value : pynum) (decimals : Z) : result string :=
  if (decimals <? 0) || (INT_MAX <? decimals) then Raise ValueError
  else result_bind (to_float value) (fun x => Ok (format_float x decimals)).

(** ** The world: network, console and files *)

(** The query of one GET request. *)
Record request : Type := mk_request {
  url : string;
  field_serie : string;
  field_field_date : string;
  field_field_acquisition_date : string;
  quantity : string
}.

(** The JSON document of a response, read at the type that [fetch_value]
    declares for its result ([Dict[str, float]]): a list, whose items are
    dicts of floats, or anything else. The answers whose values are of
    another JSON type ([null], an [int], a string) are those of [json]
    below, with the program on them. *)
Inductive json_data : Type :=
  | JsonArray (items : list (gmap string float))
  | JsonOther.

Inductive http_body : Type :=
  | Json (data : json_data)
  | NotJson.

(** What [session.get] meets: no response at all (connection error,
    timeout after 30 seconds), or a response with its status and body. *)
Inductive http_outcome : Type :=
  | NoResponse
  | Response (status_code : Z) (body : http_body).

(** The remote service: its answer may depend on the requests seen so
    far. *)
Definition server : Type := list request -> request -> http_outcome.

(** The lines printed on the console. The text of an exception is kept as
    the exception itself. *)
Inductive line : Type :=
  | Text (s : string)
  | ErrorFetching (series_value : string) (e : exn)
  | Progress (i n : Z) (series_value subscription_number : string)
  | CheckMark (amount : string)
  | CrossMark (e : exn).

Record world : Type := mk_world {
  sent : list request;            (* the GET requests issued, oldest first *)
  console : list line;            (* the lines printed, oldest first *)
  dirs : gset string;             (* the paths made by os.makedirs, each with
                                     the directories above it *)
  files : gmap string string;     (* the files written, by path *)
  refuses : string -> option exn  (* the paths that the file system refuses
                                     to make or to write, with its error *)
}.

Definition empty_world : world := mk_world [] [] ∅ ∅ (fun _ => None).

(** ** Computations with state and exceptions *)

Definition M (S A : Type) : Type := S -> result A * S.

Definition ret {S A} (a : A) : M S A := fun s => (Ok a, s).

Definition raise {S A} (e : exn) : M S A := fun s => (Raise e, s).

Definition bind {S A B} (m : M S A) (k : A -> M S B) : M S B :=
  fun s =>
    match m s with
    | (Ok a, s') => k a s'
    | (Raise e, s') => (Raise e, s')
    end.

(** [try: m except Exception as e: h e]; the state reached when the
    exception was raised is kept. *)
Definition try_except {S A} (m : M S A) (h : exn -> M S A) : M S A :=
  fun s =>
    match m s with
    | (Ok a, s') => (Ok a, s')
    | (Raise e, s') => h e s'
    end.

Definition lift_result {S A} (r : result A) : M S A := fun s => (r, s).

Notation "'let*' x ':=' m 'in' k" := (bind m (fun x => k))
  (at level 10, x name, m at level 100, k at level 200).

Definition print (l : line) : M world unit :=
  fun w => (Ok tt, mk_world (sent w) (console w ++ [l]) (dirs w) (files w) (refuses w)).

(** ** AforroSeries *)

Module AforroSeries.
Inductive t : Type := A | B | C | D | E | F.

Definition value (s : t) : string :=
  match s with
  | A => "A" | B => "B" | C => "C" | D => "D" | E => "E" | F => "F"
  end.
End AforroSeries.

(** ** Subscription *)

Record Subscription : Type := mk_Subscription {
  series : AforroSeries.t;
  subscription_number : string;
  acquisition_date : datetime;
  units : Z;
  unit_value : option pynum;
  total_value : option float;
  acquisition_value : option float
}.

Definition set_total_value (v : option float) (sub : Subscription) : Subscription :=
  mk_Subscription (series sub) (subscription_number sub) (acquisition_date sub)
    (units sub) (unit_value sub) v (acquisition_value sub).

Definition set_acquisition_value (v : option float) (sub : Subscription) : Subscription :=
  mk_Subscription (series sub) (subscription_number sub) (acquisition_date sub)
    (units sub) (unit_value sub) (total_value sub) v.

Definition set_unit_value (v : option pynum) (sub : Subscription) : Subscription :=
  mk_Subscription (series sub) (subscription_number sub) (acquisition_date sub)
    (units sub) v (total_value sub) (acquisition_value sub).

(** ** IGCPClient.fetch_value *)

Definition BASE_URL : string := "https://www.igcp.pt".

(** [str(z)] for an [int]. *)
Definition str_int (z : Z) : string :=
  if z <? 0 then "-" +:+ digits_of (- z) else digits_of z.

(** [t.strftime('%d/%m/%Y')]: the day and the month on two digits, the
    year as the C library prints it. The model follows glibc, where a
    year below 1000 has fewer than four digits (01/06/999); other C
    libraries pad it with zeros. From the year 1000 on they agree. *)
Definition strftime_dmY (t : datetime) : string :=
  pad_zeros 2 (digits_of (day t)) +:+ "/" +:+
  pad_zeros 2 (digits_of (month t)) +:+ "/" +:+
  digits_of (year t).

(** [result[key]] on a dict. *)
Definition dict_get (d : gmap string float) (key : string) : result float :=
  match d !! key with
  | Some v => Ok v
  | None => Raise (KeyError key)
  end.

Section Client.
Context (srv : server).

(** [self.session.get(url, params=params, timeout=30)]: the request goes
    out once, and the service answers or not. *)
Definition session_get (rq : request) : M world (Z * http_body) :=
  fun w =>
    let w' := mk_world (sent w ++ [rq]) (console w) (dirs w) (files w) (refuses w) in
    match srv (sent w) rq with
    | NoResponse => (Raise RequestException, w')
    | Response status_code body => (Ok (status_code, body), w')
    end.

(** [response.raise_for_status()]: the statuses 400 to 599 raise. *)
Definition raise_for_status {S} (response : Z * http_body) : M S unit :=
  let status_code := fst response in
  if (400 <=? status_code) && (status_code <? 600)
  then raise (HTTPError status_code)
  else ret tt.

(** [response.json()] *)
Definition response_json {S} (response : Z * http_body) : M S json_data :=
  match snd response with
  | Json data => ret data
  | NotJson => raise JSONDecodeError
  end.

Definition fetch_value (series : AforroSeries.t) (date acquisition_date : datetime)
    (quantity : Z) : M world (gmap string float) :=
  let* adjusted := lift_result (_adjust_dates date acquisition_date) in
  let '(req_date, req_acq) := adjusted in
  let url := BASE_URL +:+ "/pt/api/simulator-value/query" in
  let params :=
    mk_request url (AforroSeries.value series) (strftime_dmY req_date)
      (strftime_dmY req_acq) (str_int quantity) in
  try_except
    (let* response := session_get params in
     let* _ := raise_for_status response in
     let* data := response_json response in
     match data with
     | JsonArray (first :: _) => ret first
     | _ => raise ValueError
     end)
    (fun e =>
     let* _ := print (ErrorFetching (AforroSeries.value series) e) in
     raise e).
End Client.

(** ** generate_html_report *)

(** [[field(sub) for sub in subscriptions if field(sub)]]: the items that
    the generator handed to [sum] yields. *)
Definition truthy_values (field : Subscription -> option float)
    (subscriptions : list Subscription) : list float :=
  flat_map
    (fun sub =>
       match field sub with
       | Some x => if float_truthy x then [x] else []
       | None => []
       end)
    subscriptions.

Definition total_current_value (subscriptions : list Subscription) : pynum :=
  py_sum (truthy_values total_value subscriptions).

Definition total_invested_value (subscriptions : list Subscription) : pynum :=
  py_sum (truthy_values acquisition_value subscriptions).

(** [current / invested if invested > 0 else 0] *)
Definition ratio_of (current invested : pynum) : result pynum :=
  if py_gt0 invested then py_truediv current invested else Ok (PInt 0).

Definition report_ratio (subscriptions : list Subscription) : result pynum :=
  ratio_of (total_current_value subscriptions) (total_invested_value subscriptions).

Definition dq : string := String "034"%char EmptyString.
Definition nl : string := String "010"%char EmptyString.

(** The document of the report around the formatted ratio. *)
Definition html_page (formatted_ratio : string) : string :=
  "<!DOCTYPE html>" +:+ nl +:+
  "<html>" +:+ nl +:+
  "<head>" +:+ nl +:+
  "    <title>CA</title>" +:+ nl +:+
  "</head>" +:+ nl +:+
  "<style>" +:+ nl +:+
  "body { font-family: Arial; font-size: 0.3cm }" +:+ nl +:+
  "</style>" +:+ nl +:+
  nl +:+
  "<body>" +:+ nl +:+
  "    <h1>CA</h1>" +:+ nl +:+
  "    <div id=" +:+ dq +:+ "currentMarketPrice" +:+ dq +:+
    " class=" +:+ dq +:+ "container" +:+ dq +:+ ">" +:+ nl +:+
  "        <h2 class=" +:+ dq +:+ "title" +:+ dq +:+ ">Most Recent Value:</h2>" +:+ nl +:+
  "        <h3 id=" +:+ dq +:+ "currentMarketPrice_value" +:+ dq +:+ ">" +:+
    formatted_ratio +:+ "</h3>" +:+ nl +:+
  "    </div>" +:+ nl +:+
  "</body>" +:+ nl +:+
  "</html>".

Definition is_slash (c : ascii) : bool := Ascii.eqb c "/"%char.

Fixpoint drop_while (p : ascii -> bool) (l : list ascii) : list ascii :=
  match l with
  | [] => []
  | c :: rest => if p c then drop_while p rest else l
  end.

(** [os.path.dirname(path)]: the path up to its last slash, without the
    slashes that end it unless it is made of slashes only. *)
Definition dirname (path : string) : string :=
  let head_rev := drop_while (fun c => negb (is_slash c)) (rev (list_ascii_of_string path)) in
  let stripped := drop_while is_slash head_rev in
  string_of_list_ascii (rev (match stripped with [] => head_rev | _ => stripped end)).

(** [os.makedirs(d, exist_ok=True)]: the empty path is no directory, and
    the file system may refuse the directory; a directory that is there
    already is no error. *)
Definition makedirs (d : string) : M world unit :=
  fun w =>
    if String.eqb d "" then (Raise FileNotFoundError, w)
    else match refuses w d with
         | Some e => (Raise e, w)
         | None =>
             (Ok tt, mk_world (sent w) (console w) ({[ d ]} ∪ dirs w) (files w)
                       (refuses w))
         end.

(** A path that ends with a slash names a directory. *)
Definition ends_with_slash (path : string) : bool :=
  match rev (list_ascii_of_string path) with
  | c :: _ => is_slash c
  | [] => false
  end.

(** [with open(path, 'w') as f: f.write(content)]: the empty path is no
    file, a path that ends with a slash is a directory, and the file system
    may refuse the file. *)
Definition write_file (path content : string) : M world unit :=
  fun w =>
    if String.eqb path "" then (Raise FileNotFoundError, w)
    else if ends_with_slash path then (Raise IsADirectoryError, w)
    else match refuses w path with
         | Some e => (Raise e, w)
         | None =>
             (Ok tt, mk_world (sent w) (console w) (dirs w)
                       (<[ path := content ]> (files w)) (refuses w))
         end.

Definition generate_html_report (subscriptions : list Subscription)
    (output_file : string) : M world unit :=
  let total_current_value := total_current_value subscriptions in
  let total_invested_value := total_invested_value subscriptions in
  let* ratio := lift_result (ratio_of total_current_value total_invested_value) in
  let* formatted := lift_result (format_number ratio 10) in
  let html := html_page formatted in
  let* _ := makedirs (dirname output_file) in
  let* _ := write_file output_file html in
  print (Text ("Report generated: " +:+ output_file)).

(** ** load_subscriptions *)

(** One record of the configuration file, once read and converted. *)
Record config_item : Type := mk_config_item {
  item_series : AforroSeries.t;
  item_subscription_number : string;
  item_acquisition_date : datetime;
  item_units : Z
}.

(** [Subscription(series=.., subscription_number=.., acquisition_date=..,
    units=..)]: the three value fields default to [None]. *)
Definition new_Subscription (item : config_item) : Subscription :=
  mk_Subscription (item_series item) (item_subscription_number item)
    (item_acquisition_date item) (item_units item) None None None.

(** The subscriptions of a configuration file that is present and well
    formed (any other file stops the program before the first request). *)
Definition load_subscriptions (config : list config_item) : list Subscription :=
  map new_Subscription config.

(** ** main *)

Section Main.
Context (srv : server).

Definition in_world {A} (m : M world A) : M (Subscription * world) A :=
  fun s =>
    match m (snd s) with
    | (r, w') => (r, (fst s, w'))
    end.

Definition update_sub (f : Subscription -> Subscription) : M (Subscription * world) unit :=
  fun s => (Ok tt, (f (fst s), snd s)).

Definition read_sub : M (Subscription * world) Subscription :=
  fun s => (Ok (fst s), s).

(** The body of the [try] of the loop, on the subscription [sub] of the
    state: the assignments made before an exception stay. *)
Definition fetch_into_sub (today : datetime) : M (Subscription * world) unit :=
  let* sub := read_sub in
  let* result := in_world (fetch_value srv (series sub) today
                             (acquisition_date sub) (units sub)) in
  let* field_value := lift_result (dict_get result "field_value") in
  let* _ := update_sub (set_total_value (Some field_value)) in
  let* field_acquisition_value :=
    lift_result (dict_get result "field_acquisition_value") in
  let* _ := update_sub (set_acquisition_value (Some field_acquisition_value)) in
  let* unit_value :=
    lift_result
      (if 0 <? units sub
       then py_truediv (PFloat field_value) (PInt (units sub))
       else Ok (PInt 0)) in
  let* _ := update_sub (set_unit_value (Some unit_value)) in
  let* amount := lift_result (format_number (PFloat field_value) 2) in
  in_world (print (CheckMark amount)).

(** One turn of the loop: the progress line, the [try] and its handler,
    which prints and goes on. The result tells whether the [try] ended
    without an exception. *)
Definition process_subscription (today : datetime) (i n : Z) (sub : Subscription)
    : world -> (result unit * Subscription) * world :=
  fun w =>
    match print (Progress i n (AforroSeries.value (series sub))
                   (subscription_number sub)) w with
    | (_, w0) =>
        match fetch_into_sub today (sub, w0) with
        | (Ok tt, (sub', w1)) => ((Ok tt, sub'), w1)
        | (Raise e, (sub', w1)) => ((Raise e, sub'), snd (print (CrossMark e) w1))
        end
    end.

(** [for i, sub in enumerate(subscriptions, 1): ...], from index [i] on:
    the subscriptions as the loop leaves them. *)
Fixpoint fetch_loop (today : datetime) (i n : Z) (subscriptions : list Subscription)
    (w : world) : list Subscription * world :=
  match subscriptions with
  | [] => ([], w)
  | sub :: rest =>
      match process_subscription today i n sub w with
      | ((_, sub'), w') =>
          match fetch_loop today (i + 1) n rest w' with
          | (rest', w'') => (sub' :: rest', w'')
          end
      end
  end.

Definition total_current (subscriptions : list Subscription) : pynum :=
  py_sum (truthy_values total_value subscriptions).

Definition total_invested (subscriptions : list Subscription) : pynum :=
  py_sum (truthy_values acquisition_value subscriptions).

Definition main (config : list config_item) (today : datetime) : M world unit :=
  let subscriptions := load_subscriptions config in
  let* _ := print (Text "Fetching current values from IGCP API...") in
  let* subscriptions :=
    (fun w =>
       match fetch_loop today 1 (Z.of_nat (length subscriptions)) subscriptions w with
       | (subs', w') => (Ok subs', w')
       end) in
  let* _ := print (Text (nl +:+ "Generating HTML report...")) in
  let* _ := generate_html_report subscriptions "out/index.html" in
  let total_current := total_current subscriptions in
  let total_invested := total_invested subscriptions in
  let* ratio := lift_result (ratio_of total_current total_invested) in
  let* s_current := lift_result (format_number total_current 2) in
  let* _ := print (Text (nl +:+ "Total current value: " +:+ s_current +:+ " EUR")) in
  let* s_invested := lift_result (format_number total_invested 2) in
  let* _ := print (Text ("Total invested value: " +:+ s_invested +:+ " EUR")) in
  let* s_ratio := lift_result (format_number ratio 10) in
  print (Text ("Ratio (current/invested): " +:+ s_ratio)).
End Main.

(** ** Sample values *)

Module Samples.
(** Sunday 10 March 2024, half past twelve. *)
Definition today : datetime := mk_datetime 2024 3 10 12 30 0 0.
(** 15 May 2020. *)
Definition acquired : datetime := mk_datetime 2020 5 15 0 0 0 0.
(** 20 March 2024: the same month as [today], a later day. *)
Definition acquired_later : datetime := mk_datetime 2024 3 20 0 0 0 0.

(** The first month that a [datetime] can hold. *)
Definition jan_10_year_1 : datetime := mk_datetime 1 1 10 0 0 0 0.
Definition jan_15_year_1 : datetime := mk_datetime 1 1 15 0 0 0 0.
Definition jan_05_year_1 : datetime := mk_datetime 1 1 5 0 0 0 0.
Definition jan_20_year_1 : datetime := mk_datetime 1 1 20 0 0 0 0.
End Samples.

(** ** Statements of the specification about the dates *)

(** The case that the date adjustment cannot answer: the month before
    January of year 1 is outside of [datetime]. *)
Definition before_first_month (today acq : datetime) : Prop :=
  day today < day acq /\ month today = 1 /\ year today = MINYEAR.

(** The adjustment of a day of the month of [today] that lies before the
    day of [acq], both in one month: the value request falls on the month
    before, the acquisition request on the month itself, hence later. *)
Definition value_request_precedes (today acq : datetime) : Prop :=
  exists req_date req_acq,
    _adjust_dates today acq = Ok (req_date, req_acq) /\
    req_date = previous_month_start today /\
    req_acq = first_of_month (year today) (month today) /\
    datetime_ltb req_date req_acq = true.

(** ** Statements of the specification about the aggregation *)

(** The value of a number as a float; the [int] 0 of an empty sum is 0.0. *)
Definition float_value (v : pynum) : float :=
  match v with
  | PInt z => SF2Prim (binary_normalize prec emax z 0 false)
  | PFloat f => f
  end.

(** Two floats that are the same value, the sign of a zero apart. *)
Definition float_equiv (a b : float) : Prop :=
  a = b \/ (PrimFloat.eqb a 0%float = true /\ PrimFloat.eqb b 0%float = true).


Definition is_set {A} (v : option A) : bool :=
  match v with Some _ => true | None => false end.






(** ** Sample runs *)

Module Scenario.
(** A holding of 100 units of series E, bought on 15 May 2020. *)
Definition item : config_item :=
  mk_config_item AforroSeries.E "123" Samples.acquired 100.

(** The objects that the service may put first in its answer. *)
Definition both_fields : gmap string float :=
  {[ "field_value" := 1000%float; "field_acquisition_value" := 900%float ]}.
Definition only_field_value : gmap string float :=
  {[ "field_value" := 1000%float ]}.

(** A service that answers every request with status 200 and a list of
    the one object [first]. *)
Definition answers (first : gmap string float) : server :=
  fun _ _ => Response 200 (Json (JsonArray [first])).

(** The subscriptions of [item] after a run against each service. *)
Definition fetched : Subscription :=
  mk_Subscription AforroSeries.E "123" Samples.acquired 100
    (Some (PFloat 10%float)) (Some 1000%float) (Some 900%float).
Definition total_only : Subscription :=
  mk_Subscription AforroSeries.E "123" Samples.acquired 100
    None (Some 1000%float) None.
Definition untouched : Subscription := new_Subscription item.

End Scenario.

(** ** Statements of the specification about the client and the loop *)

(** The query that [fetch_value] sends for the adjusted dates. *)
Definition query_of (series : AforroSeries.t) (req_date req_acq : datetime)
    (quantity : Z) : request :=
  mk_request (BASE_URL +:+ "/pt/api/simulator-value/query")
    (AforroSeries.value series) (strftime_dmY req_date) (strftime_dmY req_acq)
    (str_int quantity).

Definition status_is_error (status_code : Z) : bool :=
  (400 <=? status_code) && (status_code <? 600).

(** The exception that an answer of the service makes [fetch_value] raise,
    if any. *)
Definition failure_of (answer : http_outcome) : option exn :=
  match answer with
  | NoResponse => Some RequestException
  | Response status_code body =>
      if status_is_error status_code then Some (HTTPError status_code)
      else match body with
           | NotJson => Some JSONDecodeError
           | Json JsonOther => Some ValueError
           | Json (JsonArray []) => Some ValueError
           | Json (JsonArray (_ :: _)) => None
           end
  end.

(** The world once one more request has gone out. *)
Definition sent_to (w : world) (rq : request) : world :=
  mk_world (sent w ++ [rq]) (console w) (dirs w) (files w) (refuses w).

Definition all_unset (sub : Subscription) : bool :=
  negb (is_set (total_value sub)) && negb (is_set (unit_value sub)) &&
  negb (is_set (acquisition_value sub)).

(** The world after the progress line of a subscription. *)
Definition after_progress (i n : Z) (sub : Subscription) (w : world) : world :=
  snd (print (Progress i n (AforroSeries.value (series sub))
                (subscription_number sub)) w).

(** ** Notions for the properties of the whole program *)

(** [a <= b] on naive datetimes. *)
Definition datetime_leb (a b : datetime) : bool := negb (datetime_ltb b a).

Definition is_digit (c : ascii) : bool :=
  (48 <=? nat_of_ascii c)%nat && (nat_of_ascii c <=? 57)%nat.

Definition all_digits (s : string) : bool :=
  forallb is_digit (list_ascii_of_string s).

Definition is_comma (c : ascii) : bool := Ascii.eqb c ","%char.

(** The text without its commas. *)
Definition remove_commas (s : string) : string :=
  string_of_list_ascii
    (List.filter (fun c => negb (is_comma c)) (list_ascii_of_string s)).


(** The fields of a subscription that the configuration gives. *)
Definition identity_of (sub : Subscription)
  : AforroSeries.t * string * datetime * Z :=
  (series sub, subscription_number sub, acquisition_date sub, units sub).

Definition is_progress (l : line) : bool :=
  match l with Progress _ _ _ _ => true | _ => false end.

Definition is_check_mark (l : line) : bool :=
  match l with CheckMark _ => true | _ => false end.

Definition is_cross_mark (l : line) : bool :=
  match l with CrossMark _ => true | _ => false end.

Definition count_lines (p : line -> bool) (l : list line) : nat :=
  length (List.filter p l).

(** The subscriptions for which the date adjustment answers on [today]. *)
Definition adjusts (today : datetime) (sub : Subscription) : bool :=
  is_ok (_adjust_dates today (acquisition_date sub)).

(** A service none of whose answers [fetch_value] accepts. *)
Definition always_fails (srv : server) : Prop :=
  forall history rq, failure_of (srv history rq) <> None.

(** The world in which the loop of [main] starts. *)
Definition at_loop_start (w : world) : world :=
  snd (print (Text "Fetching current values from IGCP API...") w).

(** The subscriptions and the world that the loop of [main] leaves. *)
Definition after_loop (srv : server) (config : list config_item)
    (today : datetime) (w : world) : list Subscription * world :=
  fetch_loop srv today 1 (Z.of_nat (length (load_subscriptions config)))
    (load_subscriptions config) (at_loop_start w).

(** A date parameter of the query: day 01, a month and a year of two and
    four digits. *)
Definition first_day_text (s : string) : Prop :=
  exists mm yyyy,
    s = "01/" +:+ mm +:+ "/" +:+ yyyy /\
    String.length mm = 2%nat /\ String.length yyyy = 4%nat /\
    all_digits mm = true /\ all_digits yyyy = true.

(** A float that is a number: neither an infinity nor NaN. *)
Definition is_finite (x : float) : bool :=
  match Prim2SF x with
  | S754_zero _ | S754_finite _ _ _ => true
  | _ => false
  end.

(** The decimal digit [r] put before the digits [d], least significant
    digit first. *)
Definition cons_digit (r : N) (d : Decimal.uint) : Decimal.uint :=
  match r with
  | 0%N => Decimal.D0 d | 1%N => Decimal.D1 d | 2%N => Decimal.D2 d
  | 3%N => Decimal.D3 d | 4%N => Decimal.D4 d | 5%N => Decimal.D5 d
  | 6%N => Decimal.D6 d | 7%N => Decimal.D7 d | 8%N => Decimal.D8 d
  | _ => Decimal.D9 d
  end.

(** The [k] lowest decimal digits of [n], least significant digit first. *)
Fixpoint low_digits (k : nat) (n : N) : Decimal.uint :=
  match k with
  | O => Decimal.Nil
  | S k' => cons_digit (n mod 10)%N (low_digits k' (n / 10)%N)
  end.

(** The queries that a run sends on [today]: one for each subscription
    whose dates adjust, in the order of the subscriptions. *)
Definition queries_for (today : datetime) (subscriptions : list Subscription)
  : list request :=
  flat_map
    (fun sub =>
       match _adjust_dates today (acquisition_date sub) with
       | Ok (req_date, req_acq) =>
           [query_of (series sub) req_date req_acq (units sub)]
       | Raise _ => []
       end)
    subscriptions.


(** ** The answers as JSON: values of any type *)

(** The typed model above takes the answer as [fetch_value] is annotated, a
    dict of floats. Nothing in the code checks it: [response.json()] may
    return any JSON value, and its fields reach the subscription as they
    are. The definitions below follow the same lines of the source on
    JSON values of any type; on answers of floats they do what the typed
    ones do ([typed_turn_is_raw_turn], [typed_ratio_is_raw_ratio]). *)

(** A JSON value as [json.loads] returns it: [None], [bool], [int],
    [float] (NaN and the infinities included), [str], [list], [dict]. *)
#[warnings="-register-all"]
Inductive json : Type :=
  | JNull
  | JBool (b : bool)
  | JInt (z : Z)
  | JFloat (f : float)
  | JStr (s : string)
  | JList (items : list json)
  | JDict (fields : gmap string json).

(** [v[key]] for a key that is a string: a dict finds the key or raises
    [KeyError], a value of another type raises [TypeError]. *)
Definition py_getitem (v : json) (key : string) : result json :=
  match v with
  | JDict fields =>
      match fields !! key with
      | Some x => Ok x
      | None => Raise (KeyError key)
      end
  | _ => Raise TypeError
  end.

(** [bool(v)] *)
Definition py_bool (v : json) : bool :=
  match v with
  | JNull => false
  | JBool b => b
  | JInt z => negb (z =? 0)
  | JFloat f => float_truthy f
  | JStr s => negb (String.eqb s "")
  | JList items => match items with [] => false | _ => true end
  | JDict fields => negb (Nat.eqb (size fields) 0)
  end.

(** The number that a value is: a [bool] is an [int]. *)
Definition as_number (v : json) : option pynum :=
  match v with
  | JBool b => Some (PInt (if b then 1 else 0))
  | JInt z => Some (PInt z)
  | JFloat f => Some (PFloat f)
  | _ => None
  end.

Definition json_of_num (n : pynum) : json :=
  match n with
  | PInt z => JInt z
  | PFloat f => JFloat f
  end.

(** [a + b] on numbers: two [int]s are added exactly, otherwise both
    operands become floats. *)
Definition num_add (a b : pynum) : result pynum :=
  match a, b with
  | PInt x, PInt y => Ok (PInt (x + y))
  | _, _ =>
      result_bind (to_float a) (fun x =>
      result_bind (to_float b) (fun y => Ok (PFloat (PrimFloat.add x y))))
  end.

(** [acc + v] where [acc] is a number: a value that is no number raises
    [TypeError]. *)
Definition py_add (acc : pynum) (v : json) : result pynum :=
  match as_number v with
  | Some n => num_add acc n
  | None => Raise TypeError
  end.

(** [sum(vs)]: the values are added from left to right to the [int] 0,
    up to the first addition that raises. *)
Fixpoint sum_from (acc : pynum) (vs : list json) : result pynum :=
  match vs with
  | [] => Ok acc
  | v :: rest => result_bind (py_add acc v) (fun acc' => sum_from acc' rest)
  end.

Definition raw_sum (vs : list json) : result pynum := sum_from (PInt 0) vs.

(** [a / b] for two [int]s, [b] not 0: the float nearest to the quotient,
    ties to even; a quotient beyond the floats raises [OverflowError]. The
    quotient is first taken with more than 64 bits, its last bit telling
    whether the division has a remainder, and then rounded once. *)
Definition int_true_div (a b : Z) : result float :=
  let negate := xorb (a <? 0) (b <? 0) in
  let x := Z.abs a in
  let y := Z.abs b in
  if x =? 0 then Ok (if negate then (-0)%float else 0%float)
  else
    let shift := Z.max 0 (Z.log2 y - Z.log2 x + 66) in
    let q := (x * 2 ^ shift) / y in
    let r := (x * 2 ^ shift) mod y in
    let m := 2 * q + (if r =? 0 then 0 else 1) in
    match binary_normalize prec emax (if negate then - m else m) (- shift - 1) false with
    | S754_infinity _ => Raise OverflowError
    | sf => Ok (SF2Prim sf)
    end.

(** [a / b] on numbers: two [int]s give the rounded quotient, otherwise
    both operands become floats, the left one first; a divisor that is
    zero raises [ZeroDivisionError]. *)
Definition num_truediv (a b : pynum) : result pynum :=
  match a, b with
  | PInt x, PInt y =>
      if y =? 0 then Raise ZeroDivisionError
      else result_bind (int_true_div x y) (fun q => Ok (PFloat q))
  | _, _ => py_truediv a b
  end.

(** [v / n] for an [int] [n]: a value that is no number raises
    [TypeError]. *)
Definition value_truediv (v : json) (n : Z) : result pynum :=
  match as_number v with
  | Some a => num_truediv a (PInt n)
  | None => Raise TypeError
  end.

(** [format_number(v, decimals)] on a value: a number is formatted, a
    string knows no code [f] ([ValueError]), any other value supports no
    format ([TypeError]). *)
Definition format_value (v : json) (decimals : Z) : result string :=
  match v with
  | JStr _ => Raise ValueError
  | _ =>
      match as_number v with
      | Some n => format_number n decimals
      | None => Raise TypeError
      end
  end.

(** The body of a response: a JSON document or not. *)
Inductive raw_body : Type :=
  | RawJson (data : json)
  | RawNotJson.

Inductive raw_outcome : Type :=
  | RawNoResponse
  | RawResponse (status_code : Z) (body : raw_body).

Definition raw_server : Type := list request -> request -> raw_outcome.

(** A subscription whose value fields hold whatever was assigned to them;
    [JNull] is [None], the field unset. *)
Record RawSubscription : Type := mk_RawSubscription {
  raw_series : AforroSeries.t;
  raw_subscription_number : string;
  raw_acquisition_date : datetime;
  raw_units : Z;
  raw_unit_value : json;
  raw_total_value : json;
  raw_acquisition_value : json
}.

Definition raw_set_total_value (v : json) (sub : RawSubscription) : RawSubscription :=
  mk_RawSubscription (raw_series sub) (raw_subscription_number sub)
    (raw_acquisition_date sub) (raw_units sub) (raw_unit_value sub) v
    (raw_acquisition_value sub).

Definition raw_set_acquisition_value (v : json) (sub : RawSubscription) : RawSubscription :=
  mk_RawSubscription (raw_series sub) (raw_subscription_number sub)
    (raw_acquisition_date sub) (raw_units sub) (raw_unit_value sub)
    (raw_total_value sub) v.

Definition raw_set_unit_value (v : json) (sub : RawSubscription) : RawSubscription :=
  mk_RawSubscription (raw_series sub) (raw_subscription_number sub)
    (raw_acquisition_date sub) (raw_units sub) v (raw_total_value sub)
    (raw_acquisition_value sub).

Definition raw_new_Subscription (item : config_item) : RawSubscription :=
  mk_RawSubscription (item_series item) (item_subscription_number item)
    (item_acquisition_date item) (item_units item) JNull JNull JNull.

Definition raw_load_subscriptions (config : list config_item) : list RawSubscription :=
  map raw_new_Subscription config.

Section RawClient.
Context (srv : raw_server).

Definition raw_session_get (rq : request) : M world (Z * raw_body) :=
  fun w =>
    match srv (sent w) rq with
    | RawNoResponse => (Raise RequestException, sent_to w rq)
    | RawResponse status_code body => (Ok (status_code, body), sent_to w rq)
    end.

Definition raw_raise_for_status {S} (status_code : Z) : M S unit :=
  if (400 <=? status_code) && (status_code <? 600)
  then raise (HTTPError status_code)
  else ret tt.

Definition raw_response_json {S} (body : raw_body) : M S json :=
  match body with
  | RawJson data => ret data
  | RawNotJson => raise JSONDecodeError
  end.

(** [IGCPClient.fetch_value], lines 70 to 102: the first item of a
    non-empty list is returned as it is. *)
Definition raw_fetch_value (series : AforroSeries.t) (date acquisition_date : datetime)
    (quantity : Z) : M world json :=
  let* adjusted := lift_result (_adjust_dates date acquisition_date) in
  let '(req_date, req_acq) := adjusted in
  let url := BASE_URL +:+ "/pt/api/simulator-value/query" in
  let params :=
    mk_request url (AforroSeries.value series) (strftime_dmY req_date)
      (strftime_dmY req_acq) (str_int quantity) in
  try_except
    (let* response := raw_session_get params in
     let* _ := raw_raise_for_status (fst response) in
     let* data := raw_response_json (snd response) in
     match data with
     | JList (first :: _) => ret first
     | _ => raise ValueError
     end)
    (fun e =>
     let* _ := print (ErrorFetching (AforroSeries.value series) e) in
     raise e).

Definition raw_in_world {A} (m : M world A) : M (RawSubscription * world) A :=
  fun s =>
    match m (snd s) with
    | (r, w') => (r, (fst s, w'))
    end.

Definition raw_update_sub (f : RawSubscription -> RawSubscription)
  : M (RawSubscription * world) unit :=
  fun s => (Ok tt, (f (fst s), snd s)).

Definition raw_read_sub : M (RawSubscription * world) RawSubscription :=
  fun s => (Ok (fst s), s).

(** The body of the [try] of the loop, lines 190 to 201. *)
Definition raw_fetch_into_sub (today : datetime) : M (RawSubscription * world) unit :=
  let* sub := raw_read_sub in
  let* result := raw_in_world (raw_fetch_value (raw_series sub) today
                                 (raw_acquisition_date sub) (raw_units sub)) in
  let* field_value := lift_result (py_getitem result "field_value") in
  let* _ := raw_update_sub (raw_set_total_value field_value) in
  let* field_acquisition_value :=
    lift_result (py_getitem result "field_acquisition_value") in
  let* _ := raw_update_sub (raw_set_acquisition_value field_acquisition_value) in
  let* unit_value :=
    lift_result
      (if 0 <? raw_units sub
       then value_truediv field_value (raw_units sub)
       else Ok (PInt 0)) in
  let* _ := raw_update_sub (raw_set_unit_value (json_of_num unit_value)) in
  let* amount := lift_result (format_value field_value 2) in
  raw_in_world (print (CheckMark amount)).

(** One turn of the loop, lines 187 to 203. *)
Definition raw_process_subscription (today : datetime) (i n : Z) (sub : RawSubscription)
    : world -> (result unit * RawSubscription) * world :=
  fun w =>
    match print (Progress i n (AforroSeries.value (raw_series sub))
                   (raw_subscription_number sub)) w with
    | (_, w0) =>
        match raw_fetch_into_sub today (sub, w0) with
        | (Ok tt, (sub', w1)) => ((Ok tt, sub'), w1)
        | (Raise e, (sub', w1)) => ((Raise e, sub'), snd (print (CrossMark e) w1))
        end
    end.

Fixpoint raw_fetch_loop (today : datetime) (i n : Z) (subscriptions : list RawSubscription)
    (w : world) : list RawSubscription * world :=
  match subscriptions with
  | [] => ([], w)
  | sub :: rest =>
      match raw_process_subscription today i n sub w with
      | ((_, sub'), w') =>
          match raw_fetch_loop today (i + 1) n rest w' with
          | (rest', w'') => (sub' :: rest', w'')
          end
      end
  end.
End RawClient.

(** [[field(sub) for sub in subscriptions if field(sub)]] *)
Definition raw_truthy_values (field : RawSubscription -> json)
    (subscriptions : list RawSubscription) : list json :=
  List.filter py_bool (map field subscriptions).

(** Lines 114 and 210. *)
Definition raw_total_current_value (subscriptions : list RawSubscription) : result pynum :=
  raw_sum (raw_truthy_values raw_total_value subscriptions).

(** Lines 115 and 211. *)
Definition raw_total_invested_value (subscriptions : list RawSubscription) : result pynum :=
  raw_sum (raw_truthy_values raw_acquisition_value subscriptions).

(** Lines 118 and 212: [current / invested if invested > 0 else 0]. *)
Definition raw_ratio_of (current invested : pynum) : result pynum :=
  if py_gt0 invested then num_truediv current invested else Ok (PInt 0).

(** The totals, then the ratio: lines 114 to 118. *)
Definition raw_report_ratio (subscriptions : list RawSubscription) : result pynum :=
  result_bind (raw_total_current_value subscriptions) (fun current =>
  result_bind (raw_total_invested_value subscriptions) (fun invested =>
  raw_ratio_of current invested)).

(** [generate_html_report], lines 110 to 145, on subscriptions that hold
    any values: each [sum] and the quotient may raise. *)
Definition raw_generate_html_report (subscriptions : list RawSubscription)
    (output_file : string) : M world unit :=
  let* total_current_value := lift_result (raw_total_current_value subscriptions) in
  let* total_invested_value := lift_result (raw_total_invested_value subscriptions) in
  let* ratio := lift_result (raw_ratio_of total_current_value total_invested_value) in
  let* formatted := lift_result (format_number ratio 10) in
  let html := html_page formatted in
  let* _ := makedirs (dirname output_file) in
  let* _ := write_file output_file html in
  print (Text ("Report generated: " +:+ output_file)).

(** [main], lines 174 to 216. *)
Definition raw_main (srv : raw_server) (config : list config_item) (today : datetime)
    : M world unit :=
  let subscriptions := raw_load_subscriptions config in
  let* _ := print (Text "Fetching current values from IGCP API...") in
  let* subscriptions :=
    (fun w =>
       match raw_fetch_loop srv today 1 (Z.of_nat (length subscriptions))
               subscriptions w with
       | (subs', w') => (Ok subs', w')
       end) in
  let* _ := print (Text (nl +:+ "Generating HTML report...")) in
  let* _ := raw_generate_html_report subscriptions "out/index.html" in
  let* total_current := lift_result (raw_total_current_value subscriptions) in
  let* total_invested := lift_result (raw_total_invested_value subscriptions) in
  let* ratio := lift_result (raw_ratio_of total_current total_invested) in
  let* s_current := lift_result (format_number total_current 2) in
  let* _ := print (Text (nl +:+ "Total current value: " +:+ s_current +:+ " EUR")) in
  let* s_invested := lift_result (format_number total_invested 2) in
  let* _ := print (Text ("Total invested value: " +:+ s_invested +:+ " EUR")) in
  let* s_ratio := lift_result (format_number ratio 10) in
  print (Text ("Ratio (current/invested): " +:+ s_ratio)).

(** *** The typed model inside the JSON one *)

Definition json_of_float (v : option float) : json :=
  match v with
  | Some f => JFloat f
  | None => JNull
  end.

Definition raw_of_sub (sub : Subscription) : RawSubscription :=
  mk_RawSubscription (series sub) (subscription_number sub) (acquisition_date sub)
    (units sub)
    (match unit_value sub with Some n => json_of_num n | None => JNull end)
    (json_of_float (total_value sub)) (json_of_float (acquisition_value sub)).

(** An answer of the typed model as the JSON document it stands for: the
    dicts hold floats; what is no list is, for one, [null]. *)
Definition raw_of_outcome (answer : http_outcome) : raw_outcome :=
  match answer with
  | NoResponse => RawNoResponse
  | Response status_code NotJson => RawResponse status_code RawNotJson
  | Response status_code (Json JsonOther) => RawResponse status_code (RawJson JNull)
  | Response status_code (Json (JsonArray items)) =>
      RawResponse status_code
        (RawJson (JList (map (fun d : gmap string float => JDict (JFloat <$> d)) items)))
  end.

Definition raw_of_server (srv : server) : raw_server :=
  fun history rq => raw_of_outcome (srv history rq).


(** *** Notions for the properties on JSON answers *)

(** The exception that an answer makes [fetch_value] raise, if any: no
    response, a status of failure, a body that is not JSON, a document
    that is not a non-empty list. *)
Definition raw_failure_of (answer : raw_outcome) : option exn :=
  match answer with
  | RawNoResponse => Some RequestException
  | RawResponse status_code body =>
      if status_is_error status_code then Some (HTTPError status_code)
      else match body with
           | RawNotJson => Some JSONDecodeError
           | RawJson (JList (_ :: _)) => None
           | RawJson _ => Some ValueError
           end
  end.

(** The world after the progress line of a subscription. *)
Definition raw_after_progress (i n : Z) (sub : RawSubscription) (w : world) : world :=
  snd (print (Progress i n (AforroSeries.value (raw_series sub))
                (raw_subscription_number sub)) w).

(** The fields of a subscription that the configuration gives. *)
Definition raw_identity_of (sub : RawSubscription)
  : AforroSeries.t * string * datetime * Z :=
  (raw_series sub, raw_subscription_number sub, raw_acquisition_date sub,
   raw_units sub).

(** A field that holds a value, whatever it is: not [None]. *)
Definition json_is_set (v : json) : bool :=
  match v with JNull => false | _ => true end.

(** The three value fields of a subscription are all [None]. *)
Definition raw_all_unset (sub : RawSubscription) : bool :=
  negb (json_is_set (raw_total_value sub)) &&
  negb (json_is_set (raw_unit_value sub)) &&
  negb (json_is_set (raw_acquisition_value sub)).

(** *** Sample runs on JSON answers *)

Module RawScenario.
(** The objects that the service may put first in its answer. *)
Definition only_field_value : json :=
  JDict {[ "field_value" := JFloat 1000%float ]}.
Definition no_fields : json := JDict ∅.
Definition int_total : json :=
  JDict {[ "field_value" := JInt (2 ^ 53 + 1);
           "field_acquisition_value" := JFloat 900%float ]}.

(** A service that answers every request with status 200 and a list of
    the one item [first]. *)
Definition answers (first : json) : raw_server :=
  fun _ _ => RawResponse 200 (RawJson (JList [first])).

(** A holding of 3 units of series E, bought on 15 May 2020. *)
Definition item_of_3 : config_item :=
  mk_config_item AforroSeries.E "123" Samples.acquired 3.

Definition untouched : RawSubscription := raw_new_Subscription Scenario.item.
Definition untouched_of_3 : RawSubscription := raw_new_Subscription item_of_3.

(** [untouched] with a total value and nothing else. *)
Definition total_only : RawSubscription :=
  mk_RawSubscription AforroSeries.E "123" Samples.acquired 100
    JNull (JFloat 1000%float) JNull.
End RawScenario.
(** * Properties *)

(** ** Dates *)

Lemma date_fields_ok_spec (y m d : Z) :
  date_fields_ok y m d = true <->
  MINYEAR <= y <= MAXYEAR /\ 1 <= m <= 12 /\ 1 <= d <= days_in_month y m.
Proof. unfold date_fields_ok. rewrite !andb_true_iff, !Z.leb_le. lia. Qed.

Lemma datetime_ok_date (t : datetime) :
  datetime_ok t = true -> date_fields_ok (year t) (month t) (day t) = true.
Proof. unfold datetime_ok. rewrite !andb_true_iff. tauto. Qed.

Lemma days_in_month_ge_28 (y m : Z) : 28 <= days_in_month y m.
Proof.
  unfold days_in_month.
  destruct (m =? 2); [destruct (is_leap y); lia|].
  destruct ((m =? 4) || (m =? 6) || (m =? 9) || (m =? 11)); lia.
Qed.

(** The first of a month is a date whenever the month is one. *)
Lemma datetime_new_first (y m : Z) :
  MINYEAR <= y <= MAXYEAR -> 1 <= m <= 12 ->
  datetime_new y m 1 = Ok (first_of_month y m).
Proof.
  intros Hy Hm. unfold datetime_new.
  assert (date_fields_ok y m 1 = true) as ->; [|reflexivity].
  apply date_fields_ok_spec. pose proof (days_in_month_ge_28 y m). lia.
Qed.

Lemma datetime_new_year_0 (m d : Z) : datetime_new 0 m d = Raise ValueError.
Proof. reflexivity. Qed.

Lemma first_of_month_ok (y m : Z) :
  MINYEAR <= y <= MAXYEAR -> 1 <= m <= 12 -> datetime_ok (first_of_month y m) = true.
Proof.
  intros Hy Hm. unfold datetime_ok; cbn.
  rewrite !andb_true_r. apply date_fields_ok_spec.
  pose proof (days_in_month_ge_28 y m). lia.
Qed.

(** The month before, in months counted from year 0. *)
Lemma previous_month_index (t : datetime) :
  1 <= month t <= 12 ->
  month_index (previous_month_start t) = month_index t - 1 /\
  1 <= month (previous_month_start t) <= 12.
Proof.
  intros Hm. unfold previous_month_start, month_index.
  destruct (Z.eqb_spec (month t) 1) as [E|E]; cbn; lia.
Qed.

(** Whatever the dates, the adjustment either answers as the specification
    says or raises [ValueError] in the month before which there is none. *)
Lemma adjust_dates_cases (today acq : datetime) :
  datetime_ok today = true -> datetime_ok acq = true ->
  (before_first_month today acq /\ _adjust_dates today acq = Raise ValueError) \/
  (~ before_first_month today acq /\ adjusts_as_specified today acq).
Proof.
  intros Ht Ha.
  apply datetime_ok_date, date_fields_ok_spec in Ht as (Hy & Hm & Hd).
  apply datetime_ok_date, date_fields_ok_spec in Ha as (Hy' & Hm' & Hd').
  unfold adjusts_as_specified, before_first_month, _adjust_dates,
    spec_value_request, previous_month_start.
  rewrite (datetime_new_first _ _ Hy' Hm'); cbn [result_bind].
  destruct (Z.ltb_spec (day today) (day acq)) as [Hlt|Hge].
  - destruct (Z.eqb_spec (month today) 1) as [E1|E1].
    + destruct (Z.eq_dec (year today) MINYEAR) as [Ey|Ey].
      * left. rewrite Ey. split; [tauto|]. reflexivity.
      * right. split; [tauto|].
        rewrite datetime_new_first; [reflexivity| unfold MINYEAR in *; lia | lia].
    + right. split; [tauto|].
      rewrite datetime_new_first; [reflexivity | lia | lia].
  - right. split; [lia|].
    rewrite datetime_new_first; [reflexivity | lia | lia].
Qed.

(** C1, as amended: for every pair of dates but those where today lies in
    January of year 1 on a day of the month before the acquisition day, the
    date adjustment returns the first day of the acquisition month as the
    acquisition-request date, and as the value-request date the first day
    of the month before today's month (December of the year before, when
    today is in January) if today's day of the month is strictly less than
    the acquisition day of the month, the first day of today's month
    otherwise; the two are dates, and in months counted from year 0 the
    value request lies one month before today's month in the first case. *)
Theorem adjust_dates_spec (today acq : datetime) :
  datetime_ok today = true ->
  datetime_ok acq = true ->
  ~ before_first_month today acq ->
  adjusts_as_specified today acq /\
  datetime_ok (spec_value_request today acq) = true /\
  datetime_ok (first_of_month (year acq) (month acq)) = true /\
  month_index (spec_value_request today acq) =
    month_index today - (if day today <? day acq then 1 else 0).
Proof.
  intros Ht Ha Hn.
  destruct (adjust_dates_cases today acq Ht Ha) as [[Hb _]|[_ Hs]]; [tauto|].
  split; [exact Hs|].
  apply datetime_ok_date, date_fields_ok_spec in Ht as (Hy & Hm & Hd).
  apply datetime_ok_date, date_fields_ok_spec in Ha as (Hy' & Hm' & Hd').
  split; [|split; [apply first_of_month_ok; lia|]].
  - unfold spec_value_request, previous_month_start.
    unfold before_first_month in Hn.
    destruct (Z.ltb_spec (day today) (day acq)).
    + destruct (Z.eqb_spec (month today) 1);
        apply first_of_month_ok; unfold MINYEAR in *; lia.
    + apply first_of_month_ok; lia.
  - unfold spec_value_request.
    destruct (Z.ltb_spec (day today) (day acq)).
    + apply previous_month_index; lia.
    + unfold month_index; cbn; lia.
Qed.

Lemma adjust_dates_spec_witness :
  datetime_ok Samples.today = true /\
  datetime_ok Samples.acquired = true /\
  _adjust_dates Samples.today Samples.acquired =
    Ok (mk_datetime 2024 2 1 0 0 0 0, mk_datetime 2020 5 1 0 0 0 0).
Proof.
  split; [reflexivity|]. split; [reflexivity|].
  apply (adjust_dates_spec Samples.today Samples.acquired);
    [reflexivity | reflexivity |].
  unfold before_first_month; cbn; lia.
Defined.

(** C1, as stated, fails on 10 January of year 1 with an acquisition on the
    15th: both are dates, and the adjustment raises [ValueError] where the
    claim has it return the first of December of year 0. *)
Lemma adjust_dates_year_1_raises :
  datetime_ok Samples.jan_10_year_1 = true /\
  datetime_ok Samples.jan_15_year_1 = true /\
  _adjust_dates Samples.jan_10_year_1 Samples.jan_15_year_1 = Raise ValueError /\
  ~ adjusts_as_specified Samples.jan_10_year_1 Samples.jan_15_year_1.
Proof.
  split; [reflexivity|]. split; [reflexivity|]. split; [reflexivity|].
  unfold adjusts_as_specified. cbn. discriminate.
Qed.

Lemma first_of_month_ltb (y m m' : Z) :
  m < m' -> datetime_ltb (first_of_month y m) (first_of_month y m') = true.
Proof.
  intros H. unfold datetime_ltb; cbn.
  rewrite Z.eqb_refl. apply Z.ltb_lt in H. rewrite H. cbn.
  apply orb_true_r.
Qed.

Lemma first_of_year_ltb (y y' m m' : Z) :
  y < y' -> datetime_ltb (first_of_month y m) (first_of_month y' m') = true.
Proof.
  intros H. unfold datetime_ltb; cbn. apply Z.ltb_lt in H. now rewrite H.
Qed.

(** C9, as amended: whenever the acquisition date lies in the month and
    year of today, today's day of the month is strictly less than the
    acquisition day of the month, and today is not in January of year 1,
    the date adjustment returns the first of the month before today's as
    the value-request date and the first of today's month as the
    acquisition-request date, so that the value-request date is strictly
    earlier than the acquisition-request date. *)
Theorem value_request_before_acquisition_request (today acq : datetime) :
  datetime_ok today = true ->
  datetime_ok acq = true ->
  year acq = year today ->
  month acq = month today ->
  day today < day acq ->
  ~ (month today = 1 /\ year today = MINYEAR) ->
  value_request_precedes today acq.
Proof.
  intros Ht Ha Ey Em Hlt Hn.
  destruct (adjust_dates_cases today acq Ht Ha) as [[Hb _]|[_ Hs]].
  { unfold before_first_month in Hb. tauto. }
  unfold value_request_precedes.
  exists (previous_month_start today), (first_of_month (year today) (month today)).
  unfold adjusts_as_specified, spec_value_request in Hs.
  apply Z.ltb_lt in Hlt. rewrite Hlt, Ey, Em in Hs.
  split; [exact Hs|]. split; [reflexivity|]. split; [reflexivity|].
  unfold previous_month_start.
  destruct (Z.eqb_spec (month today) 1).
  - apply first_of_year_ltb. lia.
  - apply first_of_month_ltb. lia.
Qed.

Lemma value_request_before_acquisition_request_witness :
  day Samples.today < day Samples.acquired_later /\
  _adjust_dates Samples.today Samples.acquired_later =
    Ok (mk_datetime 2024 2 1 0 0 0 0, mk_datetime 2024 3 1 0 0 0 0) /\
  datetime_ltb (mk_datetime 2024 2 1 0 0 0 0) (mk_datetime 2024 3 1 0 0 0 0) = true.
Proof.
  split; [cbn; lia|].
  destruct (value_request_before_acquisition_request
              Samples.today Samples.acquired_later)
    as (rd & ra & Hadj & Hrd & Hra & Hlt);
    [reflexivity | reflexivity | reflexivity | reflexivity | cbn; lia
    | cbn; lia |].
  subst rd ra. split; [exact Hadj | exact Hlt].
Defined.

(** C9, as stated, fails on 5 January of year 1 with an acquisition on the
    20th of the same month: the day of today is the smaller one, and the
    adjustment returns no dates at all. *)
Lemma value_request_year_1_raises :
  datetime_ok Samples.jan_05_year_1 = true /\
  datetime_ok Samples.jan_20_year_1 = true /\
  year Samples.jan_20_year_1 = year Samples.jan_05_year_1 /\
  month Samples.jan_20_year_1 = month Samples.jan_05_year_1 /\
  day Samples.jan_05_year_1 < day Samples.jan_20_year_1 /\
  ~ value_request_precedes Samples.jan_05_year_1 Samples.jan_20_year_1.
Proof.
  repeat (split; [reflexivity|]).
  intros (rd & ra & Hadj & _). cbn in Hadj. discriminate.
Qed.

(** ** Floats *)

Lemma Prim2SF_zero : Prim2SF 0%float = S754_zero false.
Proof. reflexivity. Qed.

Lemma float_zero_iff (x : float) :
  PrimFloat.eqb x 0%float = true <-> exists s, Prim2SF x = S754_zero s.
Proof.
  rewrite FloatAxioms.eqb_spec, Prim2SF_zero. unfold SFeqb.
  destruct (Prim2SF x) as [s|s| |s m e]; cbn.
  - split; eauto.
  - destruct s; split; try discriminate; intros [? ?]; discriminate.
  - split; try discriminate; intros [? ?]; discriminate.
  - destruct s; split; try discriminate; intros [? ?]; discriminate.
Qed.

Lemma float_truthy_false (x : float) :
  float_truthy x = false <-> PrimFloat.eqb x 0%float = true.
Proof. unfold float_truthy. destruct (PrimFloat.eqb x 0); cbn; split; congruence. Qed.



(** Addition does not tell the two zeros apart on its left, the sign of a
    zero result apart. *)
Lemma add_equiv_l (a a' x : float) :
  float_equiv a a' -> float_equiv (PrimFloat.add a x) (PrimFloat.add a' x).
Proof.
  intros [->|[Ha Ha']]; [now left|].
  apply float_zero_iff in Ha as [s Ha], Ha' as [s' Ha'].
  pose proof (add_spec a x) as H1. pose proof (add_spec a' x) as H2.
  rewrite Ha in H1. rewrite Ha' in H2. unfold SF64add in H1, H2.
  destruct (Prim2SF x) as [sx|sx| |sx mx ex] eqn:Hx; cbn in H1, H2.
  - right. split; apply float_zero_iff.
    + destruct s, sx; eauto.
    + destruct s', sx; eauto.
  - left. apply Prim2SF_inj. congruence.
  - left. apply Prim2SF_inj. congruence.
  - left. apply Prim2SF_inj. congruence.
Qed.




Lemma fold_add_equiv (xs : list float) (a a' : float) :
  float_equiv a a' ->
  float_equiv (fold_left PrimFloat.add xs a) (fold_left PrimFloat.add xs a').
Proof.
  revert a a'. induction xs as [|x xs IH]; intros a a' H; cbn; [exact H|].
  apply IH, add_equiv_l, H.
Qed.

(** The sum of an empty selection is the [int] 0, any other sum a float. *)
Lemma py_sum_cases (xs : list float) :
  (xs = [] /\ py_sum xs = PInt 0) \/ (exists f, py_sum xs = PFloat f).
Proof.
  destruct xs as [|x xs]; [left; split; reflexivity|right].
  unfold py_sum; cbn. generalize (PrimFloat.add 0 x); intros f.
  revert f. induction xs as [|y ys IH]; intros f; cbn; eauto.
Qed.

(** ** Aggregation *)

Section Fields.
Context (field : Subscription -> option float).



(** A value that is unset or zero is not in the sum. *)
Lemma truthy_values_app (l1 l2 : list Subscription) :
  truthy_values field (l1 ++ l2) = truthy_values field l1 ++ truthy_values field l2.
Proof. unfold truthy_values. apply flat_map_app. Qed.
End Fields.


(** The totals that [main] prints are the ones of the report. *)
Lemma main_totals_are_report_totals (subs : list Subscription) :
  total_current subs = total_current_value subs /\
  total_invested subs = total_invested_value subs.
Proof. split; reflexivity. Qed.





(** C10: a subscription whose total value, or acquisition value, is a zero
    is left out of the corresponding sum: the totals of the report and of
    [main] are those of the list where the field is unset, and those of the
    list without the subscription. *)
Theorem zero_value_is_left_out (before after : list Subscription)
    (sub : Subscription) (z : float) :
  PrimFloat.eqb z 0%float = true ->
  (total_current_value (before ++ set_total_value (Some z) sub :: after) =
     total_current_value (before ++ set_total_value None sub :: after) /\
   total_current_value (before ++ set_total_value (Some z) sub :: after) =
     total_current_value (before ++ after) /\
   total_current (before ++ set_total_value (Some z) sub :: after) =
     total_current (before ++ after)) /\
  (total_invested_value (before ++ set_acquisition_value (Some z) sub :: after) =
     total_invested_value (before ++ set_acquisition_value None sub :: after) /\
   total_invested_value (before ++ set_acquisition_value (Some z) sub :: after) =
     total_invested_value (before ++ after) /\
   total_invested (before ++ set_acquisition_value (Some z) sub :: after) =
     total_invested (before ++ after)).
Proof.
  intros Hz. apply float_truthy_false in Hz.
  unfold total_current_value, total_invested_value, total_current, total_invested.
  rewrite !truthy_values_app. cbn. rewrite Hz. cbn.
  repeat split; reflexivity.
Qed.

Lemma zero_value_is_left_out_witness :
  PrimFloat.eqb 0%float 0%float = true /\
  total_current_value
    ([Scenario.fetched] ++ set_total_value (Some 0%float) Scenario.fetched :: []) =
  total_current_value ([Scenario.fetched] ++ []).
Proof.
  split; [reflexivity|].
  apply (zero_value_is_left_out [Scenario.fetched] [] Scenario.fetched 0%float).
  reflexivity.
Defined.

(** ** Ratio *)

Lemma float_of_int_0 : float_of_int 0 = Ok 0%float.
Proof. reflexivity. Qed.

Lemma float_of_int_raises z e : float_of_int z = Raise e -> e = OverflowError.
Proof.
  unfold float_of_int.
  destruct (binary_normalize prec emax z 0 false); congruence.
Qed.

(** A float above 0 is not a zero. *)
Lemma positive_not_zero (f : float) :
  PrimFloat.ltb 0%float f = true -> PrimFloat.eqb f 0%float = false.
Proof.
  rewrite ltb_spec, FloatAxioms.eqb_spec, Prim2SF_zero. unfold SFltb, SFeqb.
  destruct (Prim2SF f) as [s|s| |s m e]; cbn; try discriminate;
    destruct s; cbn; congruence.
Qed.

(** No sum of floats is an [int] other than 0, so that every such sum has
    a value as a float. *)
Lemma to_float_py_sum (xs : list float) : to_float (py_sum xs) = Ok (float_value (py_sum xs)).
Proof.
  destruct (py_sum_cases xs) as [[_ ->]|[f ->]]; reflexivity.
Qed.

(** The guarded quotient, case by case. *)
Lemma ratio_of_sums (cs vs : list float) :
  (py_gt0 (py_sum vs) = true /\
   exists invested, py_sum vs = PFloat invested /\
     PrimFloat.ltb 0%float invested = true /\
     py_truediv (py_sum cs) (py_sum vs) =
       Ok (PFloat (PrimFloat.div (float_value (py_sum cs)) invested)) /\
     ratio_of (py_sum cs) (py_sum vs) =
       Ok (PFloat (PrimFloat.div (float_value (py_sum cs)) invested))) \/
  (py_gt0 (py_sum vs) = false /\ ratio_of (py_sum cs) (py_sum vs) = Ok (PInt 0)).
Proof.
  unfold ratio_of.
  destruct (py_gt0 (py_sum vs)) eqn:Hgt; [left|right; split; reflexivity].
  split; [reflexivity|].
  destruct (py_sum_cases vs) as [[_ Hv]|[f Hv]]; rewrite Hv in Hgt |- *;
    [discriminate|].
  exists f. cbn in Hgt. split; [reflexivity|]. split; [exact Hgt|].
  unfold py_truediv. rewrite to_float_py_sum. cbn.
  rewrite (positive_not_zero f Hgt). split; reflexivity.
Qed.

Lemma format_number_ok (v : pynum) (decimals : Z) (f : float) :
  to_float v = Ok f -> 0 <= decimals <= INT_MAX ->
  format_number v decimals = Ok (format_float f decimals).
Proof.
  intros Hf [H0 H1]. unfold format_number. rewrite Hf.
  apply Z.ltb_ge in H0, H1. rewrite H0, H1. reflexivity.
Qed.

(** The ratio of sums of floats is always a number that can be
    formatted. *)
Lemma ratio_of_sums_formats (cs vs : list float) :
  exists ratio f,
    ratio_of (py_sum cs) (py_sum vs) = Ok ratio /\ to_float ratio = Ok f.
Proof.
  destruct (ratio_of_sums cs vs) as [(_ & i & _ & _ & _ & H)|[_ H]];
    rewrite H; eauto.
Qed.

(** The effect of the report on the world, once the ratio is known, when
    the file system accepts the directory and the file. *)
Lemma generate_html_report_run (subs : list Subscription) (path : string)
    (ratio : pynum) (text : string) (w : world) :
  report_ratio subs = Ok ratio ->
  format_number ratio 10 = Ok text ->
  String.eqb (dirname path) "" = false ->
  String.eqb path "" = false ->
  ends_with_slash path = false ->
  refuses w (dirname path) = None ->
  refuses w path = None ->
  generate_html_report subs path w =
    (Ok tt,
     mk_world (sent w) (console w ++ [Text ("Report generated: " +:+ path)])
       ({[ dirname path ]} ∪ dirs w) (<[ path := html_page text ]> (files w))
       (refuses w)).
Proof.
  intros Hr Hf Hd Hp Hs Hrd Hrp. unfold generate_html_report, report_ratio in *.
  unfold bind, lift_result. rewrite Hr, Hf.
  unfold makedirs, write_file, print. rewrite Hd, Hrd. cbn. rewrite Hp, Hs, Hrp.
  reflexivity.
Qed.

(** *** The sums and the quotient on values of any type *)

(** An addition raises [TypeError], on a value that is no number, or
    [OverflowError], on an [int] beyond the floats. *)
Lemma py_add_raises (acc : pynum) (v : json) (e : exn) :
  py_add acc v = Raise e -> e = TypeError \/ e = OverflowError.
Proof.
  unfold py_add. destruct (as_number v) as [n|]; [|intros [= <-]; now left].
  unfold num_add.
  destruct acc as [x|a], n as [y|b]; cbn; try discriminate; intros H; right.
  - destruct (float_of_int x) eqn:Hx; cbn in H; [discriminate|].
    injection H as <-. eapply float_of_int_raises; eauto.
  - destruct (float_of_int y) eqn:Hy; cbn in H; [discriminate|].
    injection H as <-. eapply float_of_int_raises; eauto.
Qed.

Lemma sum_from_raises (vs : list json) (acc : pynum) (e : exn) :
  sum_from acc vs = Raise e -> e = TypeError \/ e = OverflowError.
Proof.
  revert acc. induction vs as [|v rest IH]; intros acc; cbn; [discriminate|].
  destruct (py_add acc v) as [acc'|e'] eqn:Hadd; cbn.
  - apply IH.
  - intros [= <-]. eapply py_add_raises; eauto.
Qed.

(** The rounded quotient of two [int]s raises nothing but
    [OverflowError]. *)
Lemma int_true_div_raises (a b : Z) (e : exn) :
  int_true_div a b = Raise e -> e = OverflowError.
Proof.
  unfold int_true_div. destruct (Z.abs a =? 0); [discriminate|]. cbv zeta.
  match goal with
  | |- context [binary_normalize ?p ?em ?m ?ex ?s] =>
      destruct (binary_normalize p em m ex s)
  end; congruence.
Qed.

(** A quotient by a number above 0 raises nothing but [OverflowError]. *)
Lemma num_truediv_positive (a b : pynum) (e : exn) :
  py_gt0 b = true -> num_truediv a b = Raise e -> e = OverflowError.
Proof.
  intros Hgt. unfold num_truediv, py_truediv.
  destruct a as [x|f], b as [y|g]; cbn in Hgt |- *.
  - assert ((y =? 0) = false) as -> by (apply Z.eqb_neq; apply Z.ltb_lt in Hgt; lia).
    destruct (int_true_div x y) eqn:Hd; cbn; [discriminate|].
    intros [= <-]. eapply int_true_div_raises; eauto.
  - destruct (float_of_int x) eqn:Hx; cbn.
    + rewrite (positive_not_zero g Hgt). discriminate.
    + intros [= <-]. eapply float_of_int_raises; eauto.
  - assert ((y =? 0) = false) as -> by (apply Z.eqb_neq; apply Z.ltb_lt in Hgt; lia).
    destruct (float_of_int y) eqn:Hy; cbn; [discriminate|].
    intros [= <-]. eapply float_of_int_raises; eauto.
  - rewrite (positive_not_zero g Hgt). discriminate.
Qed.


(** *** Values of floats *)

Lemma sum_from_floats (xs : list float) (a : float) :
  sum_from (PFloat a) (map JFloat xs) = Ok (fold_left py_add_float xs (PFloat a)).
Proof.
  revert a. induction xs as [|x rest IH]; intros a; [reflexivity|].
  cbn. apply IH.
Qed.

Lemma raw_sum_floats (xs : list float) : raw_sum (map JFloat xs) = Ok (py_sum xs).
Proof.
  unfold raw_sum, py_sum. destruct xs as [|x rest]; [reflexivity|].
  cbn [map sum_from fold_left].
  change (py_add (PInt 0) (JFloat x)) with (Ok (py_add_float (PInt 0) x)).
  cbn [result_bind]. apply sum_from_floats.
Qed.

Section TypedFields.
Context (field : Subscription -> option float) (raw_field : RawSubscription -> json).
Hypothesis raw_field_of_sub : forall sub, raw_field (raw_of_sub sub) = json_of_float (field sub).

Lemma raw_truthy_values_of_subs (subs : list Subscription) :
  raw_truthy_values raw_field (map raw_of_sub subs) =
    map JFloat (truthy_values field subs).
Proof.
  unfold raw_truthy_values, truthy_values.
  induction subs as [|sub rest IH]; [reflexivity|].
  cbn [map List.filter flat_map]. rewrite map_app, <- IH, raw_field_of_sub.
  destruct (field sub) as [x|]; cbn; [|reflexivity].
  destruct (float_truthy x); reflexivity.
Qed.
End TypedFields.

(** On subscriptions of floats, the totals are those of the typed model
    and no sum raises. *)
Lemma raw_totals_of_subs (subs : list Subscription) :
  raw_total_current_value (map raw_of_sub subs) = Ok (total_current_value subs) /\
  raw_total_invested_value (map raw_of_sub subs) = Ok (total_invested_value subs).
Proof.
  unfold raw_total_current_value, raw_total_invested_value,
    total_current_value, total_invested_value.
  rewrite (raw_truthy_values_of_subs total_value raw_total_value),
    (raw_truthy_values_of_subs acquisition_value raw_acquisition_value)
    by reflexivity.
  split; apply raw_sum_floats.
Qed.

Lemma raw_ratio_of_sums (cs vs : list float) :
  raw_ratio_of (py_sum cs) (py_sum vs) = ratio_of (py_sum cs) (py_sum vs).
Proof.
  unfold raw_ratio_of, ratio_of.
  destruct (py_gt0 (py_sum vs)) eqn:Hgt; [|reflexivity].
  destruct (py_sum_cases vs) as [[_ Hv]|[f Hv]]; rewrite Hv in Hgt |- *;
    [discriminate|].
  unfold num_truediv. now destruct (py_sum cs).
Qed.





(** ** No subscription *)

(** C7: with no subscription in the configuration, the total current value
    and the total invested value are both 0, the ratio is 0, and [main]
    ends without an exception and without a request, whatever the
    service: it makes the directory out and writes to out/index.html the
    HTML document of the report, whose ratio reads 0.0000000000, and
    prints the totals 0.00. The file system is taken to accept the
    directory and the file. *)
Theorem empty_config_report (srv : server) (json_srv : raw_server)
    (today : datetime) (w : world) :
  refuses w "out" = None ->
  refuses w "out/index.html" = None ->
  total_current_value (load_subscriptions []) = PInt 0 /\
  total_invested_value (load_subscriptions []) = PInt 0 /\
  report_ratio (load_subscriptions []) = Ok (PInt 0) /\
  format_number (PInt 0) 10 = Ok "0.0000000000" /\
  exists w',
    main srv [] today w = (Ok tt, w') /\
    raw_main json_srv [] today w = (Ok tt, w') /\
    files w' !! "out/index.html" =
      Some (String.concat nl
        [ "<!DOCTYPE html>";
          "<html>";
          "<head>";
          "    <title>CA</title>";
          "</head>";
          "<style>";
          "body { font-family: Arial; font-size: 0.3cm }";
          "</style>";
          "";
          "<body>";
          "    <h1>CA</h1>";
          "    <div id=" +:+ dq +:+ "currentMarketPrice" +:+ dq +:+
            " class=" +:+ dq +:+ "container" +:+ dq +:+ ">";
          "        <h2 class=" +:+ dq +:+ "title" +:+ dq +:+ ">Most Recent Value:</h2>";
          "        <h3 id=" +:+ dq +:+ "currentMarketPrice_value" +:+ dq +:+
            ">0.0000000000</h3>";
          "    </div>";
          "</body>";
          "</html>" ]) /\
    dirs w' = {[ "out" ]} ∪ dirs w /\
    sent w' = sent w /\
    console w' = console w ++
      [Text "Fetching current values from IGCP API...";
       Text (nl +:+ "Generating HTML report...");
       Text "Report generated: out/index.html";
       Text (nl +:+ "Total current value: 0.00 EUR");
       Text "Total invested value: 0.00 EUR";
       Text "Ratio (current/invested): 0.0000000000"].
Proof.
  intros Hdir Hfile.
  repeat (split; [reflexivity|]).
  eexists. split; [|split].
  - unfold main. unfold bind at 1. cbn [print load_subscriptions map length fetch_loop].
    unfold bind at 1. unfold bind at 1. cbn [print].
    unfold bind at 1.
    erewrite generate_html_report_run;
      [|reflexivity|reflexivity|reflexivity|reflexivity|reflexivity
       |exact Hdir|exact Hfile].
    cbn. reflexivity.
  - unfold raw_main, raw_generate_html_report, bind, lift_result, makedirs, write_file.
    cbn. rewrite Hdir. cbn. rewrite Hfile. reflexivity.
  - cbn. split; [apply lookup_insert_eq|]. split; [reflexivity|].
    split; [reflexivity|].
    rewrite <- !app_assoc. reflexivity.
Qed.

Lemma empty_config_report_witness :
  refuses empty_world "out" = None /\
  refuses empty_world "out/index.html" = None /\
  report_ratio (load_subscriptions []) = Ok (PInt 0) /\
  is_ok (fst (main (fun _ _ => NoResponse) [] Samples.today empty_world)) = true.
Proof.
  destruct (empty_config_report (fun _ _ => NoResponse) (fun _ _ => RawNoResponse)
              Samples.today empty_world eq_refl eq_refl)
    as (_ & _ & Hr & _ & w' & Hrun & _).
  split; [reflexivity|]. split; [reflexivity|]. split; [exact Hr|].
  rewrite Hrun. reflexivity.
Defined.

(** ** Number formatting *)

(** C8, as amended: applied to the float 1234567.891, that is the binary64
    value 5302428716536693 / 2^32 nearest to the quotient of 1234567891 by
    1000, the number formatting returns 1,234,567.89 at 2 decimal places
    and 1,234,567.8910000001 at 10 decimal places, with commas between the
    thousands and a dot before the decimals; a value with fewer decimals
    is padded with zeros, as 1234567.5 is at 10 places. *)
Theorem format_number_1234567_891 :
  1234567.891%float = PrimFloat.div 1234567891%float 1000%float /\
  Prim2SF 1234567.891%float = S754_finite false 5302428716536693 (-32) /\
  format_number (PFloat 1234567.891%float) 2 = Ok "1,234,567.89" /\
  format_number (PFloat 1234567.891%float) 10 = Ok "1,234,567.8910000001" /\
  format_number (PFloat 1234567.5%float) 10 = Ok "1,234,567.5000000000".
Proof. repeat split; vm_compute; reflexivity. Qed.

(** C8, as stated, fails at 10 decimal places: the text is not
    1,234,567.8910000000, the float 1234567.891 being a little above the
    decimal number. *)
Lemma format_number_1234567_891_at_10 :
  format_number (PFloat 1234567.891%float) 10 <> Ok "1,234,567.8910000000".
Proof. vm_compute. discriminate. Qed.

(** ** The client *)

Section ClientFacts.
Context (srv : server).

(** The date adjustment raises before anything is sent or printed. *)
Lemma fetch_value_adjust_raises series date acq q w e :
  _adjust_dates date acq = Raise e ->
  fetch_value srv series date acq q w = (Raise e, w).
Proof.
  intros H. unfold fetch_value, bind, lift_result. now rewrite H.
Qed.

(** An answer that fails is logged and raised again, after one request. *)
Lemma fetch_value_raises series date acq q w rd ra e :
  _adjust_dates date acq = Ok (rd, ra) ->
  failure_of (srv (sent w) (query_of series rd ra q)) = Some e ->
  fetch_value srv series date acq q w =
    (Raise e,
     snd (print (ErrorFetching (AforroSeries.value series) e)
            (sent_to w (query_of series rd ra q)))).
Proof.
  intros Hadj Hf.
  unfold fetch_value, bind, lift_result. rewrite Hadj.
  unfold try_except, session_get, bind. fold (query_of series rd ra q).
  destruct (srv (sent w) (query_of series rd ra q)) as [|st body]; cbn in Hf.
  - injection Hf as <-. reflexivity.
  - unfold raise_for_status, response_json. cbn [fst snd].
    fold (status_is_error st). destruct (status_is_error st).
    + injection Hf as <-. reflexivity.
    + destruct body as [[[|first rest]|]|]; cbn in Hf |- *;
        try discriminate; injection Hf as <-; reflexivity.
Qed.

(** A non-empty list under a good status is answered by its first item,
    whatever the item holds. *)
Lemma fetch_value_returns series date acq q w rd ra st first rest :
  _adjust_dates date acq = Ok (rd, ra) ->
  srv (sent w) (query_of series rd ra q) =
    Response st (Json (JsonArray (first :: rest))) ->
  status_is_error st = false ->
  fetch_value srv series date acq q w =
    (Ok first, sent_to w (query_of series rd ra q)).
Proof.
  intros Hadj Hans Hst.
  unfold fetch_value, bind, lift_result. rewrite Hadj.
  unfold try_except, session_get, bind. fold (query_of series rd ra q).
  rewrite Hans. unfold raise_for_status, response_json. cbn [fst snd].
  fold (status_is_error st). rewrite Hst. reflexivity.
Qed.

Lemma failure_of_none answer :
  failure_of answer = None ->
  exists st first rest,
    answer = Response st (Json (JsonArray (first :: rest))) /\
    status_is_error st = false.
Proof.
  destruct answer as [|st body]; cbn; [discriminate|].
  destruct (status_is_error st) eqn:Hst; [discriminate|].
  destruct body as [[[|first rest]|]|]; try discriminate. eauto.
Qed.

(** The date adjustment raises nothing but [ValueError]. *)
Lemma adjust_dates_raises_ValueError date acq e :
  _adjust_dates date acq = Raise e -> e = ValueError.
Proof.
  unfold _adjust_dates, datetime_new.
  repeat match goal with
         | |- context [if ?c then _ else _] => destruct c
         end; cbn; congruence.
Qed.

Lemma failure_of_exn answer e :
  failure_of answer = Some e ->
  e = RequestException \/ (exists st, e = HTTPError st) \/
  e = JSONDecodeError \/ e = ValueError.
Proof.
  destruct answer as [|st body]; cbn; [intros [= <-]; tauto|].
  destruct (status_is_error st); [intros [= <-]; eauto|].
  destruct body as [[[|first rest]|]|]; intros [= <-]; tauto.
Qed.

(** [fetch_value] ends in one of three ways. *)
Lemma fetch_value_cases series date acq q w :
  (exists first st rest rd ra,
     _adjust_dates date acq = Ok (rd, ra) /\
     srv (sent w) (query_of series rd ra q) =
       Response st (Json (JsonArray (first :: rest))) /\
     fetch_value srv series date acq q w =
       (Ok first, sent_to w (query_of series rd ra q))) \/
  (exists e w',
     fetch_value srv series date acq q w = (Raise e, w') /\
     (e = RequestException \/ (exists st, e = HTTPError st) \/
      e = JSONDecodeError \/ e = ValueError)).
Proof.
  destruct (_adjust_dates date acq) as [[rd ra]|e] eqn:Hadj.
  - destruct (failure_of (srv (sent w) (query_of series rd ra q))) as [e|] eqn:Hf.
    + right. eexists _, _. split; [eapply fetch_value_raises; eauto|].
      eapply failure_of_exn; eauto.
    + left. apply failure_of_none in Hf as (st & first & rest & Hans & Hst).
      exists first, st, rest, rd, ra. split; [reflexivity|]. split; [exact Hans|].
      eapply fetch_value_returns; eauto.
  - right. exists e, w. split; [now apply fetch_value_adjust_raises|].
    apply adjust_dates_raises_ValueError in Hadj. tauto.
Qed.

End ClientFacts.

(** *** The client on answers of any JSON type *)

Section RawClientFacts.
Context (srv : raw_server).

Lemma raw_fetch_value_adjust_raises series date acq q w e :
  _adjust_dates date acq = Raise e ->
  raw_fetch_value srv series date acq q w = (Raise e, w).
Proof.
  intros H. unfold raw_fetch_value, bind, lift_result. now rewrite H.
Qed.

Lemma raw_fetch_value_raises series date acq q w rd ra e :
  _adjust_dates date acq = Ok (rd, ra) ->
  raw_failure_of (srv (sent w) (query_of series rd ra q)) = Some e ->
  raw_fetch_value srv series date acq q w =
    (Raise e,
     snd (print (ErrorFetching (AforroSeries.value series) e)
            (sent_to w (query_of series rd ra q)))).
Proof.
  intros Hadj Hf.
  unfold raw_fetch_value, bind, lift_result. rewrite Hadj.
  unfold try_except, raw_session_get, bind. fold (query_of series rd ra q).
  destruct (srv (sent w) (query_of series rd ra q)) as [|st body]; cbn in Hf.
  - injection Hf as <-. reflexivity.
  - unfold raw_raise_for_status, raw_response_json. cbn [fst snd].
    fold (status_is_error st). destruct (status_is_error st).
    + injection Hf as <-. reflexivity.
    + destruct body as [data|]; [|injection Hf as <-; reflexivity].
      destruct data as [| | | | |[|first rest]|]; cbn in Hf |- *;
        try discriminate; injection Hf as <-; reflexivity.
Qed.

(** A non-empty list under a good status is answered by its first item,
    whatever the item is. *)
Lemma raw_fetch_value_returns series date acq q w rd ra st first rest :
  _adjust_dates date acq = Ok (rd, ra) ->
  srv (sent w) (query_of series rd ra q) =
    RawResponse st (RawJson (JList (first :: rest))) ->
  status_is_error st = false ->
  raw_fetch_value srv series date acq q w =
    (Ok first, sent_to w (query_of series rd ra q)).
Proof.
  intros Hadj Hans Hst.
  unfold raw_fetch_value, bind, lift_result. rewrite Hadj.
  unfold try_except, raw_session_get, bind. fold (query_of series rd ra q).
  rewrite Hans. unfold raw_raise_for_status, raw_response_json. cbn [fst snd].
  fold (status_is_error st). rewrite Hst. reflexivity.
Qed.

Lemma raw_failure_of_none answer :
  raw_failure_of answer = None ->
  exists st first rest,
    answer = RawResponse st (RawJson (JList (first :: rest))) /\
    status_is_error st = false.
Proof.
  destruct answer as [|st body]; cbn; [discriminate|].
  destruct (status_is_error st) eqn:Hst; [discriminate|].
  destruct body as [data|]; [|discriminate].
  destruct data as [| | | | |[|first rest]|]; try discriminate. eauto.
Qed.

Lemma raw_failure_of_exn answer e :
  raw_failure_of answer = Some e ->
  e = RequestException \/ (exists st, e = HTTPError st) \/
  e = JSONDecodeError \/ e = ValueError.
Proof.
  destruct answer as [|st body]; cbn; [intros [= <-]; tauto|].
  destruct (status_is_error st); [intros [= <-]; eauto|].
  destruct body as [data|]; [|intros [= <-]; tauto].
  destruct data as [| | | | |[|first rest]|]; intros [= <-]; tauto.
Qed.

(** [fetch_value] ends in one of two ways. *)
Lemma raw_fetch_value_cases series date acq q w :
  (exists first st rest rd ra,
     _adjust_dates date acq = Ok (rd, ra) /\
     srv (sent w) (query_of series rd ra q) =
       RawResponse st (RawJson (JList (first :: rest))) /\
     raw_fetch_value srv series date acq q w =
       (Ok first, sent_to w (query_of series rd ra q))) \/
  (exists e w',
     raw_fetch_value srv series date acq q w = (Raise e, w') /\
     (e = RequestException \/ (exists st, e = HTTPError st) \/
      e = JSONDecodeError \/ e = ValueError)).
Proof.
  destruct (_adjust_dates date acq) as [[rd ra]|e] eqn:Hadj.
  - destruct (raw_failure_of (srv (sent w) (query_of series rd ra q))) as [e|] eqn:Hf.
    + right. eexists _, _. split; [eapply raw_fetch_value_raises; eauto|].
      eapply raw_failure_of_exn; eauto.
    + left. apply raw_failure_of_none in Hf as (st & first & rest & Hans & Hst).
      exists first, st, rest, rd, ra. split; [reflexivity|]. split; [exact Hans|].
      eapply raw_fetch_value_returns; eauto.
  - right. exists e, w. split; [now apply raw_fetch_value_adjust_raises|].
    apply adjust_dates_raises_ValueError in Hadj. tauto.
Qed.
End RawClientFacts.

(** C4: on an answer of status 200 whose list holds one object without
    the value fields, [fetch_value] raises nothing: it returns the empty
    object to its caller, after one request and with nothing printed,
    where the claim, as the docstring of the function, has it fail. *)
Lemma fetch_value_returns_object_without_fields :
  RawScenario.no_fields = JDict ∅ /\
  py_getitem RawScenario.no_fields "field_value" = Raise (KeyError "field_value") /\
  py_getitem RawScenario.no_fields "field_acquisition_value" =
    Raise (KeyError "field_acquisition_value") /\
  raw_fetch_value (RawScenario.answers RawScenario.no_fields) AforroSeries.E
    Samples.today Samples.acquired 100 empty_world =
    (Ok (JDict ∅),
     mk_world
       [mk_request "https://www.igcp.pt/pt/api/simulator-value/query" "E"
          "01/02/2024" "01/05/2020" "100"]
       [] ∅ ∅ (fun _ => None)).
Proof. repeat split. Qed.

(** ** The loop of main *)

Section LoopFacts.
Context (srv : server) (today : datetime).

(** The handler of the loop: the cross mark, and on to the next one. *)
Lemma process_subscription_raise i n sub w e w1 :
  fetch_value srv (series sub) today (acquisition_date sub) (units sub)
    (after_progress i n sub w) = (Raise e, w1) ->
  process_subscription srv today i n sub w =
    ((Raise e, sub), snd (print (CrossMark e) w1)).
Proof.
  intros H. unfold process_subscription, fetch_into_sub.
  unfold bind, read_sub, in_world. cbn [fst snd print].
  unfold after_progress in H. cbn [print snd] in H. rewrite H. reflexivity.
Qed.

(** The [try] of the loop once [fetch_value] has returned [result]: the
    fields are assigned one after the other, up to the first step that
    raises. *)
Lemma process_subscription_fetched i n sub w result w1 :
  fetch_value srv (series sub) today (acquisition_date sub) (units sub)
    (after_progress i n sub w) = (Ok result, w1) ->
  process_subscription srv today i n sub w =
    match result !! "field_value" with
    | None =>
        ((Raise (KeyError "field_value"), sub),
         snd (print (CrossMark (KeyError "field_value")) w1))
    | Some tv =>
        let sub1 := set_total_value (Some tv) sub in
        match result !! "field_acquisition_value" with
        | None =>
            ((Raise (KeyError "field_acquisition_value"), sub1),
             snd (print (CrossMark (KeyError "field_acquisition_value")) w1))
        | Some av =>
            let sub2 := set_acquisition_value (Some av) sub1 in
            if 0 <? units sub then
              match float_of_int (units sub) with
              | Ok u =>
                  ((Ok tt, set_unit_value (Some (PFloat (PrimFloat.div tv u))) sub2),
                   snd (print (CheckMark (format_float tv 2)) w1))
              | Raise e =>
                  ((Raise e, sub2), snd (print (CrossMark e) w1))
              end
            else
              ((Ok tt, set_unit_value (Some (PInt 0)) sub2),
               snd (print (CheckMark (format_float tv 2)) w1))
        end
    end.
Proof.
  intros H. unfold process_subscription, fetch_into_sub.
  unfold bind, read_sub, in_world. cbn [fst snd print].
  unfold after_progress in H. cbn [print snd] in H. rewrite H.
  unfold lift_result, dict_get, update_sub. cbn [fst snd].
  destruct (result !! "field_value") as [tv|]; [|reflexivity].
  destruct (result !! "field_acquisition_value") as [av|]; [|reflexivity].
  cbn zeta.
  destruct (Z.ltb_spec 0 (units sub)) as [Hpos|Hle]; [|reflexivity].
  unfold py_truediv. cbn [to_float result_bind num_is_zero].
  assert ((units sub =? 0) = false) as -> by (apply Z.eqb_neq; lia).
  destruct (float_of_int (units sub)) as [u|e]; reflexivity.
Qed.

End LoopFacts.

(** *** The loop on answers of any JSON type *)

Lemma py_getitem_raises (v : json) (key : string) (e : exn) :
  py_getitem v key = Raise e -> e = KeyError key \/ e = TypeError.
Proof.
  destruct v as [| | | | | |fields]; cbn; try (intros [= <-]; now right).
  destruct (fields !! key); [discriminate|]. intros [= <-]. now left.
Qed.

(** A division by a unit count above 0 gives a float, or raises
    [TypeError] or [OverflowError]. *)
Lemma value_truediv_positive (v : json) (n : Z) :
  0 < n ->
  (exists q, value_truediv v n = Ok (PFloat q)) \/
  value_truediv v n = Raise TypeError \/
  value_truediv v n = Raise OverflowError.
Proof.
  intros Hn. unfold value_truediv.
  destruct (as_number v) as [a|]; [|right; now left].
  destruct (num_truediv a (PInt n)) as [q|e] eqn:Hq.
  - left. unfold num_truediv, py_truediv in Hq.
    destruct a as [x|f]; cbn in Hq.
    + destruct (n =? 0); [discriminate|].
      destruct (int_true_div x n); cbn in Hq; [|discriminate].
      injection Hq as <-. eauto.
    + destruct (n =? 0); [discriminate|].
      destruct (float_of_int n); cbn in Hq; [|discriminate].
      injection Hq as <-. eauto.
  - right. right. f_equal.
    apply (num_truediv_positive a (PInt n) e); [now apply Z.ltb_lt|exact Hq].
Qed.

Lemma format_value_raises (v : json) (decimals : Z) (e : exn) :
  format_value v decimals = Raise e ->
  e = ValueError \/ e = TypeError \/ e = OverflowError.
Proof.
  unfold format_value, format_number.
  destruct v as [|b|z|f|s|items|fields]; cbn;
    try (intros [= <-]; tauto);
    destruct ((decimals <? 0) || (INT_MAX <? decimals));
    try (intros [= <-]; tauto); try discriminate.
  - destruct (float_of_int (if b then 1 else 0)) eqn:H; cbn; [discriminate|].
    intros [= <-]. apply float_of_int_raises in H. tauto.
  - destruct (float_of_int z) eqn:H; cbn; [discriminate|].
    intros [= <-]. apply float_of_int_raises in H. tauto.
Qed.

Section RawLoopFacts.
Context (srv : raw_server) (today : datetime).

(** The handler of the loop: the cross mark, and on to the next one. *)
Lemma raw_process_subscription_raise i n sub w e w1 :
  raw_fetch_value srv (raw_series sub) today (raw_acquisition_date sub) (raw_units sub)
    (raw_after_progress i n sub w) = (Raise e, w1) ->
  raw_process_subscription srv today i n sub w =
    ((Raise e, sub), snd (print (CrossMark e) w1)).
Proof.
  intros H. unfold raw_process_subscription, raw_fetch_into_sub.
  unfold bind, raw_read_sub, raw_in_world. cbn [fst snd print].
  unfold raw_after_progress in H. cbn [print snd] in H. rewrite H. reflexivity.
Qed.

(** The [try] of the loop once [fetch_value] has returned [result]: the
    fields are assigned one after the other, up to the first step that
    raises. *)
Lemma raw_process_subscription_fetched i n sub w result w1 :
  raw_fetch_value srv (raw_series sub) today (raw_acquisition_date sub) (raw_units sub)
    (raw_after_progress i n sub w) = (Ok result, w1) ->
  raw_process_subscription srv today i n sub w =
    match py_getitem result "field_value" with
    | Raise e => ((Raise e, sub), snd (print (CrossMark e) w1))
    | Ok tv =>
        let sub1 := raw_set_total_value tv sub in
        match py_getitem result "field_acquisition_value" with
        | Raise e => ((Raise e, sub1), snd (print (CrossMark e) w1))
        | Ok av =>
            let sub2 := raw_set_acquisition_value av sub1 in
            match (if 0 <? raw_units sub
                   then value_truediv tv (raw_units sub)
                   else Ok (PInt 0)) with
            | Raise e => ((Raise e, sub2), snd (print (CrossMark e) w1))
            | Ok uv =>
                let sub3 := raw_set_unit_value (json_of_num uv) sub2 in
                match format_value tv 2 with
                | Raise e => ((Raise e, sub3), snd (print (CrossMark e) w1))
                | Ok amount => ((Ok tt, sub3), snd (print (CheckMark amount) w1))
                end
            end
        end
    end.
Proof.
  intros H. unfold raw_process_subscription, raw_fetch_into_sub.
  unfold bind, raw_read_sub, raw_in_world. cbn [fst snd print].
  unfold raw_after_progress in H. cbn [print snd] in H. rewrite H.
  unfold lift_result, raw_update_sub. cbn [fst snd].
  destruct (py_getitem result "field_value") as [tv|]; [|reflexivity].
  destruct (py_getitem result "field_acquisition_value") as [av|]; [|reflexivity].
  cbn zeta.
  destruct (if 0 <? raw_units sub then value_truediv tv (raw_units sub) else Ok (PInt 0))
    as [uv|]; [|reflexivity].
  destruct (format_value tv 2); reflexivity.
Qed.

(** C6: for every subscription whose turn of the loop ends without an
    exception, whatever the values of the answer, the unit value is the
    total value divided by the unit count, as Python divides, when the
    unit count is greater than 0: the float quotient of a float total
    value by the unit count, the rounded quotient of an [int] one; and
    it is the [int] 0 otherwise. No turn of the loop raises
    [ZeroDivisionError], whatever the subscription and the answer. *)
Theorem unit_value_is_guarded_quotient i n sub w :
  fst (fst (raw_process_subscription srv today i n sub w)) <> Raise ZeroDivisionError /\
  forall sub' w',
    raw_process_subscription srv today i n sub w = ((Ok tt, sub'), w') ->
    raw_units sub' = raw_units sub /\
    (0 < raw_units sub ->
       exists q,
         value_truediv (raw_total_value sub') (raw_units sub) = Ok (PFloat q) /\
         raw_unit_value sub' = JFloat q) /\
    (raw_units sub <= 0 -> raw_unit_value sub' = JInt 0) /\
    (forall tv,
       raw_total_value sub' = JFloat tv -> 0 < raw_units sub ->
       exists u, float_of_int (raw_units sub) = Ok u /\
                 raw_unit_value sub' = JFloat (PrimFloat.div tv u)) /\
    (forall z,
       raw_total_value sub' = JInt z -> 0 < raw_units sub ->
       exists q, int_true_div z (raw_units sub) = Ok q /\
                 raw_unit_value sub' = JFloat q).
Proof.
  destruct (raw_fetch_value_cases srv (raw_series sub) today (raw_acquisition_date sub)
              (raw_units sub) (raw_after_progress i n sub w))
    as [(first & st & rest & rd & ra & _ & _ & Hrun)|(e & w1 & Hrun & He)].
  - rewrite (raw_process_subscription_fetched i n sub w _ _ Hrun).
    destruct (py_getitem first "field_value") as [tv|e] eqn:Htv.
    2:{ split; [|intros ? ? [=]]. cbn.
        apply py_getitem_raises in Htv as [->| ->]; discriminate. }
    destruct (py_getitem first "field_acquisition_value") as [av|e] eqn:Hav.
    2:{ split; [|intros ? ? [=]]. cbn.
        apply py_getitem_raises in Hav as [->| ->]; discriminate. }
    cbn zeta.
    destruct (Z.ltb_spec 0 (raw_units sub)) as [Hpos|Hle].
    + destruct (value_truediv_positive tv (raw_units sub) Hpos) as [[q Hq]|[Hq|Hq]];
        rewrite Hq; [|split; [discriminate|intros ? ? [=]]..].
      destruct (format_value tv 2) as [amount|e] eqn:Hfmt.
      2:{ split; [|intros ? ? [=]]. cbn.
          apply format_value_raises in Hfmt as [->|[->| ->]]; discriminate. }
      split; [discriminate|]. intros sub' w' [= <- <-]. cbn.
      split; [reflexivity|]. split; [intros _; eauto|]. split; [lia|].
      split.
      * intros f -> _. unfold value_truediv, num_truediv, py_truediv in Hq.
        cbn in Hq.
        assert ((raw_units sub =? 0) = false) as E by (apply Z.eqb_neq; lia).
        rewrite E in Hq.
        destruct (float_of_int (raw_units sub)) as [u|]; cbn in Hq; [|discriminate].
        injection Hq as <-. eauto.
      * intros z -> _. unfold value_truediv, num_truediv in Hq. cbn in Hq.
        assert ((raw_units sub =? 0) = false) as E by (apply Z.eqb_neq; lia).
        rewrite E in Hq.
        destruct (int_true_div z (raw_units sub)) as [q'|]; cbn in Hq; [|discriminate].
        injection Hq as <-. eauto.
    + destruct (format_value tv 2) as [amount|e] eqn:Hfmt.
      2:{ split; [|intros ? ? [=]]. cbn.
          apply format_value_raises in Hfmt as [->|[->| ->]]; discriminate. }
      split; [discriminate|]. intros sub' w' [= <- <-]. cbn.
      split; [reflexivity|]. split; [lia|]. split; [reflexivity|].
      split; intros; lia.
  - rewrite (raw_process_subscription_raise i n sub w _ _ Hrun). cbn [fst].
    split; [|intros ? ? [=]].
    destruct He as [->|[[st ->]|[->| ->]]]; discriminate.
Qed.
End RawLoopFacts.

Lemma unit_value_is_guarded_quotient_witness :
  raw_process_subscription (RawScenario.answers RawScenario.int_total) Samples.today 1 1
    RawScenario.untouched_of_3 empty_world =
    ((Ok tt,
      mk_RawSubscription AforroSeries.E "123" Samples.acquired 3
        (JFloat 3002399751580331%float) (JInt (2 ^ 53 + 1)) (JFloat 900%float)),
     mk_world
       [mk_request "https://www.igcp.pt/pt/api/simulator-value/query" "E"
          "01/02/2024" "01/05/2020" "3"]
       [Progress 1 1 "E" "123"; CheckMark "9,007,199,254,740,992.00"] ∅ ∅
       (fun _ => None)) /\
  0 < raw_units RawScenario.untouched_of_3 /\
  exists q,
    int_true_div (2 ^ 53 + 1) (raw_units RawScenario.untouched_of_3) = Ok q /\
    JFloat 3002399751580331%float = JFloat q.
Proof.
  assert (raw_process_subscription (RawScenario.answers RawScenario.int_total)
            Samples.today 1 1 RawScenario.untouched_of_3 empty_world =
          ((Ok tt,
            mk_RawSubscription AforroSeries.E "123" Samples.acquired 3
              (JFloat 3002399751580331%float) (JInt (2 ^ 53 + 1)) (JFloat 900%float)),
           mk_world
             [mk_request "https://www.igcp.pt/pt/api/simulator-value/query" "E"
                "01/02/2024" "01/05/2020" "3"]
             [Progress 1 1 "E" "123"; CheckMark "9,007,199,254,740,992.00"] ∅ ∅
             (fun _ => None))) as Hrun.
  { vm_compute. reflexivity. }
  split; [exact Hrun|]. split; [reflexivity|].
  destruct (proj2 (unit_value_is_guarded_quotient
                     (RawScenario.answers RawScenario.int_total)
                     Samples.today 1 1 RawScenario.untouched_of_3 empty_world)
              _ _ Hrun) as (_ & _ & _ & _ & Hint).
  exact (Hint (2 ^ 53 + 1) eq_refl ltac:(reflexivity)).
Defined.

(** C3: on the answer whose first object has [field_value] only, the turn
    of the loop of a subscription without values raises [KeyError] for
    the field that is missing, after the total value was assigned: the
    cross mark is printed, the total value is 1000 while the unit value
    and the acquisition value are still unset, and the subscription adds
    its 1000 to the total current value and nothing to the total
    invested value, where the claim has the three fields unset and the
    subscription left out. *)
Lemma total_value_set_alone :
  raw_all_unset RawScenario.untouched = true /\
  raw_process_subscription (RawScenario.answers RawScenario.only_field_value)
    Samples.today 1 1 RawScenario.untouched empty_world =
    ((Raise (KeyError "field_acquisition_value"), RawScenario.total_only),
     mk_world
       [mk_request "https://www.igcp.pt/pt/api/simulator-value/query" "E"
          "01/02/2024" "01/05/2020" "100"]
       [Progress 1 1 "E" "123"; CrossMark (KeyError "field_acquisition_value")] ∅ ∅
       (fun _ => None)) /\
  raw_total_value RawScenario.total_only = JFloat 1000%float /\
  raw_unit_value RawScenario.total_only = JNull /\
  raw_acquisition_value RawScenario.total_only = JNull /\
  raw_all_unset RawScenario.total_only = false /\
  raw_total_current_value [RawScenario.total_only] = Ok (PFloat 1000%float) /\
  raw_total_invested_value [RawScenario.total_only] = Ok (PInt 0).
Proof. repeat split; vm_compute; reflexivity. Qed.

(** * Further properties *)

(** ** Dates: order and errors *)

Lemma lex_ltb_cons (x y : Z) (a b : list Z) :
  lex_ltb (x :: a) (y :: b) = true <-> x < y \/ (x = y /\ lex_ltb a b = true).
Proof.
  cbn. rewrite orb_true_iff, andb_true_iff, Z.ltb_lt, Z.eqb_eq. tauto.
Qed.

Lemma first_of_month_lt_iff (y m y' m' : Z) :
  datetime_ltb (first_of_month y m) (first_of_month y' m') = true <->
  y < y' \/ (y = y' /\ m < m').
Proof.
  unfold datetime_ltb, datetime_key, first_of_month.
  cbn [year month day hour minute second microsecond].
  rewrite !lex_ltb_cons. cbn. split.
  - intros [H|[H1 H]]; [lia|]. destruct H as [H|[H2 H]]; [lia|]. exfalso.
    repeat (destruct H as [H|[_ H]]; [lia|]). discriminate.
  - intros [H|[H H1]]; [left; lia|right; split; [lia|left; lia]].
Qed.

(** The first of a month is not after any moment of that month or of a
    later one. *)
Lemma first_of_month_leb (y m : Z) (t : datetime) :
  datetime_ok t = true ->
  year t * 12 + month t >= y * 12 + m -> 1 <= m <= 12 ->
  datetime_leb (first_of_month y m) t = true.
Proof.
  intros Hok Hge Hm. unfold datetime_ok in Hok.
  rewrite !andb_true_iff in Hok.
  destruct Hok as [[[[[[[[Hd Hh] _] Hmi] _] Hs] _] Hus] _].
  apply date_fields_ok_spec in Hd as (Hy & Hm' & Hd).
  apply Z.leb_le in Hh, Hmi, Hs, Hus.
  unfold datetime_leb. apply negb_true_iff.
  destruct (datetime_ltb t (first_of_month y m)) eqn:E; [exfalso|reflexivity].
  unfold datetime_ltb, datetime_key, first_of_month in E.
  cbn [year month day hour minute second microsecond] in E.
  rewrite !lex_ltb_cons in E. cbn in E.
  repeat (destruct E as [E|[? E]]; [lia|]). discriminate.
Qed.

(** The order of two moments, read on their years, months and days. *)
Lemma datetime_leb_date (a b : datetime) :
  datetime_leb a b = true ->
  year a < year b \/
  (year a = year b /\ (month a < month b \/ (month a = month b /\ day a <= day b))).
Proof.
  unfold datetime_leb, datetime_ltb. rewrite negb_true_iff.
  intros H.
  destruct (Z.lt_trichotomy (year a) (year b)) as [?|[Ey|?]]; [tauto| |exfalso].
  - right. split; [exact Ey|].
    destruct (Z.lt_trichotomy (month a) (month b)) as [?|[Em|?]]; [tauto| |exfalso].
    + right. split; [exact Em|].
      destruct (Z_le_gt_dec (day a) (day b)) as [?|Hgt]; [assumption|exfalso].
      assert (lex_ltb (datetime_key b) (datetime_key a) = true) as C;
        [|congruence].
      unfold datetime_key. rewrite !lex_ltb_cons. right. split; [lia|].
      right. split; [lia|]. left. lia.
    + assert (lex_ltb (datetime_key b) (datetime_key a) = true) as C;
        [|congruence].
      unfold datetime_key. rewrite !lex_ltb_cons. right. split; [lia|]. left. lia.
  - assert (lex_ltb (datetime_key b) (datetime_key a) = true) as C;
      [|congruence].
    unfold datetime_key. rewrite !lex_ltb_cons. left. lia.
Qed.

Lemma datetime_ok_ranges (t : datetime) :
  datetime_ok t = true ->
  MINYEAR <= year t <= MAXYEAR /\ 1 <= month t <= 12 /\ 1 <= day t.
Proof.
  intros H. apply datetime_ok_date, date_fields_ok_spec in H. lia.
Qed.

(** X1: when the acquisition date is not after today, the date adjustment
    always answers, and the acquisition-request date is not after the
    value-request date. *)
Theorem acquisition_before_today_keeps_order (today acq : datetime) :
  datetime_ok today = true ->
  datetime_ok acq = true ->
  datetime_leb acq today = true ->
  exists req_date req_acq,
    _adjust_dates today acq = Ok (req_date, req_acq) /\
    datetime_leb req_acq req_date = true.
Proof.
  intros Ht Ha Hle.
  pose proof (datetime_ok_ranges _ Ht) as (Hy & Hm & Hd).
  pose proof (datetime_ok_ranges _ Ha) as (Hy' & Hm' & Hd').
  apply datetime_leb_date in Hle.
  destruct (adjust_dates_cases today acq Ht Ha) as [[Hb _]|[_ Hs]].
  { unfold before_first_month in Hb. unfold MINYEAR in *. lia. }
  eexists _, _. split; [exact Hs|].
  unfold spec_value_request, previous_month_start.
  assert (forall y m, 1 <= m <= 12 ->
            y * 12 + m >= year acq * 12 + month acq ->
            datetime_leb (first_of_month (year acq) (month acq))
                         (first_of_month y m) = true) as Hcmp.
  { intros y m Hm12 Hge. unfold datetime_leb. apply negb_true_iff.
    destruct (datetime_ltb (first_of_month y m)
                (first_of_month (year acq) (month acq))) eqn:E; [|reflexivity].
    apply first_of_month_lt_iff in E. lia. }
  destruct (Z.ltb_spec (day today) (day acq)).
  - destruct (Z.eqb_spec (month today) 1); apply Hcmp; lia.
  - apply Hcmp; lia.
Qed.

Lemma acquisition_before_today_keeps_order_witness :
  datetime_leb Samples.acquired Samples.today = true /\
  exists req_date req_acq,
    _adjust_dates Samples.today Samples.acquired = Ok (req_date, req_acq) /\
    datetime_leb req_acq req_date = true.
Proof.
  split; [reflexivity|].
  apply (acquisition_before_today_keeps_order Samples.today Samples.acquired);
    reflexivity.
Defined.

(** X2: on dates, the date adjustment raises exactly when today lies in January
    of year 1 on a day of the month before the acquisition day, and then
    it raises [ValueError]. *)
Theorem adjust_dates_raises_iff (today acq : datetime) :
  datetime_ok today = true ->
  datetime_ok acq = true ->
  (is_ok (_adjust_dates today acq) = false <->
     day today < day acq /\ month today = 1 /\ year today = 1) /\
  (forall e, _adjust_dates today acq = Raise e -> e = ValueError).
Proof.
  intros Ht Ha. split.
  - destruct (adjust_dates_cases today acq Ht Ha) as [[Hb Hr]|[Hn Hs]].
    + rewrite Hr. cbn. split; [intros _; exact Hb|reflexivity].
    + unfold adjusts_as_specified in Hs. rewrite Hs. cbn.
      split; [discriminate|]. intros H. exfalso. apply Hn. exact H.
  - intros e. apply adjust_dates_raises_ValueError.
Qed.

Lemma adjust_dates_raises_iff_witness :
  day Samples.jan_10_year_1 < day Samples.jan_15_year_1 /\
  is_ok (_adjust_dates Samples.jan_10_year_1 Samples.jan_15_year_1) = false.
Proof.
  split; [cbn; lia|].
  apply (adjust_dates_raises_iff Samples.jan_10_year_1 Samples.jan_15_year_1);
    [reflexivity | reflexivity |]. cbn. lia.
Defined.

(** X3: the dates that the adjustment returns are dates at midnight (hour,
    minute, second and microsecond 0) of a first of the month, the
    value-request date not after today and in today's month or the one
    before, the acquisition-request date not after the acquisition date
    and in its month. *)
Theorem adjusted_dates_not_later (today acq req_date req_acq : datetime) :
  datetime_ok today = true ->
  datetime_ok acq = true ->
  _adjust_dates today acq = Ok (req_date, req_acq) ->
  datetime_ok req_date = true /\ datetime_ok req_acq = true /\
  day req_date = 1 /\ day req_acq = 1 /\
  (hour req_date, minute req_date, second req_date, microsecond req_date) =
    (0, 0, 0, 0) /\
  (hour req_acq, minute req_acq, second req_acq, microsecond req_acq) =
    (0, 0, 0, 0) /\
  datetime_leb req_date today = true /\
  datetime_leb req_acq acq = true /\
  month_index today - 1 <= month_index req_date <= month_index today /\
  month_index req_acq = month_index acq.
Proof.
  intros Ht Ha Hadj.
  pose proof (datetime_ok_ranges _ Ht) as (Hy & Hm & Hd).
  pose proof (datetime_ok_ranges _ Ha) as (Hy' & Hm' & Hd').
  destruct (adjust_dates_cases today acq Ht Ha) as [[_ Hr]|[Hn Hs]];
    [congruence|].
  unfold adjusts_as_specified in Hs. rewrite Hs in Hadj.
  injection Hadj as <- <-.
  unfold before_first_month in Hn.
  assert ((hour (spec_value_request today acq), minute (spec_value_request today acq),
           second (spec_value_request today acq),
           microsecond (spec_value_request today acq)) = (0, 0, 0, 0)) as H0.
  { unfold spec_value_request, previous_month_start.
    destruct (day today <? day acq); [destruct (month today =? 1)|]; reflexivity. }
  assert (datetime_ok (spec_value_request today acq) = true /\
          day (spec_value_request today acq) = 1 /\
          datetime_leb (spec_value_request today acq) today = true /\
          month_index today - 1 <= month_index (spec_value_request today acq)
            <= month_index today) as (H1 & H2 & H3 & H4).
  { unfold spec_value_request, previous_month_start, month_index.
    destruct (Z.ltb_spec (day today) (day acq)).
    - destruct (Z.eqb_spec (month today) 1); cbn [year month day first_of_month].
      + split; [apply first_of_month_ok; unfold MINYEAR in *; lia|].
        split; [reflexivity|].
        split; [apply first_of_month_leb; [exact Ht|lia|lia]|lia].
      + split; [apply first_of_month_ok; lia|]. split; [reflexivity|].
        split; [apply first_of_month_leb; [exact Ht|lia|lia]|lia].
    - cbn [year month day first_of_month].
      split; [apply first_of_month_ok; lia|]. split; [reflexivity|].
      split; [apply first_of_month_leb; [exact Ht|lia|lia]|lia]. }
  split; [exact H1|]. split; [apply first_of_month_ok; lia|].
  split; [exact H2|]. split; [reflexivity|]. split; [exact H0|].
  split; [reflexivity|]. split; [exact H3|].
  split; [apply first_of_month_leb; [exact Ha|lia|lia]|].
  split; [exact H4|reflexivity].
Qed.

Lemma adjusted_dates_not_later_witness :
  _adjust_dates Samples.today Samples.acquired_later =
    Ok (mk_datetime 2024 2 1 0 0 0 0, mk_datetime 2024 3 1 0 0 0 0) /\
  datetime_ok (mk_datetime 2024 2 1 0 0 0 0) = true.
Proof.
  split; [reflexivity|].
  apply (adjusted_dates_not_later Samples.today Samples.acquired_later
           (mk_datetime 2024 2 1 0 0 0 0) (mk_datetime 2024 3 1 0 0 0 0));
    reflexivity.
Defined.

(** ** Number formatting: the shape of the text *)

Lemma list_ascii_app (a b : string) :
  list_ascii_of_string (a +:+ b) = list_ascii_of_string a ++ list_ascii_of_string b.
Proof. induction a as [|c a IH]; simpl; [reflexivity|]. now rewrite IH. Qed.

Lemma string_length_list (s : string) :
  String.length s = length (list_ascii_of_string s).
Proof. induction s as [|c s IH]; simpl; [reflexivity|]. now rewrite IH. Qed.

Lemma string_length_app (a b : string) :
  String.length (a +:+ b) = (String.length a + String.length b)%nat.
Proof. rewrite !string_length_list, list_ascii_app. apply length_app. Qed.

Lemma all_digits_app (a b : string) :
  all_digits (a +:+ b) = all_digits a && all_digits b.
Proof. unfold all_digits. rewrite list_ascii_app. apply forallb_app. Qed.

Lemma is_digit_not_comma (c : ascii) : is_digit c = true -> is_comma c = false.
Proof.
  unfold is_comma. destruct (Ascii.eqb_spec c ","%char) as [->|]; [|reflexivity].
  cbn. discriminate.
Qed.

Lemma string_of_uint_digits (u : Decimal.uint) :
  all_digits (NilEmpty.string_of_uint u) = true.
Proof. induction u; cbn; auto. Qed.

Lemma string_of_uint_length (u : Decimal.uint) :
  String.length (NilEmpty.string_of_uint u) = Decimal.nb_digits u.
Proof. induction u; cbn; auto. Qed.

Lemma digits_of_all_digits (n : Z) : all_digits (digits_of n) = true.
Proof.
  unfold digits_of, NilZero.string_of_uint.
  destruct (N.to_uint (Z.to_N n)); try apply string_of_uint_digits. reflexivity.
Qed.

Lemma digits_of_nonempty (n : Z) : digits_of n <> "".
Proof.
  unfold digits_of, NilZero.string_of_uint.
  destruct (N.to_uint (Z.to_N n)); cbn; discriminate.
Qed.

Lemma of_lu_cons_digit (r : N) (d : Decimal.uint) :
  (r < 10)%N ->
  DecimalPos.Unsigned.of_lu (cons_digit r d) = (r + 10 * DecimalPos.Unsigned.of_lu d)%N.
Proof.
  intros Hr.
  assert (r = 0 \/ r = 1 \/ r = 2 \/ r = 3 \/ r = 4 \/ r = 5 \/ r = 6 \/
          r = 7 \/ r = 8 \/ r = 9)%N as H by lia.
  repeat (destruct H as [->|H]; [reflexivity|]). subst r. reflexivity.
Qed.

Lemma nb_digits_cons_digit (r : N) (d : Decimal.uint) :
  Decimal.nb_digits (cons_digit r d) = S (Decimal.nb_digits d).
Proof.
  unfold cons_digit.
  destruct r as [|p]; [reflexivity|].
  do 4 (destruct p as [p|p|]; try reflexivity).
Qed.

Lemma of_lu_low_digits (k : nat) (n : N) :
  DecimalPos.Unsigned.of_lu (low_digits k n) = (n mod 10 ^ N.of_nat k)%N.
Proof.
  revert n. induction k as [|k IH]; intros n.
  - cbn. now rewrite N.mod_1_r.
  - cbn [low_digits]. rewrite of_lu_cons_digit by (apply N.mod_lt; lia).
    rewrite IH, Nat2N.inj_succ, N.pow_succ_r'.
    rewrite (N.Div0.mod_mul_r n 10 (10 ^ N.of_nat k)). reflexivity.
Qed.

Lemma nb_digits_low_digits (k : nat) (n : N) :
  Decimal.nb_digits (low_digits k n) = k.
Proof.
  revert n. induction k as [|k IH]; intros n; [reflexivity|].
  cbn [low_digits]. now rewrite nb_digits_cons_digit, IH.
Qed.

(** A number below [10^k] is written with [k] digits at most. *)
Lemma nb_digits_to_uint (k : nat) (n : N) :
  (0 < k)%nat -> (n < 10 ^ N.of_nat k)%N ->
  (Decimal.nb_digits (N.to_uint n) <= k)%nat.
Proof.
  intros Hk Hn.
  set (v := Decimal.rev (low_digits k n)).
  assert (N.of_uint v = n) as Hv.
  { unfold v, N.of_uint. rewrite DecimalPos.Unsigned.of_lu_rev, of_lu_low_digits.
    now apply N.mod_small. }
  rewrite <- Hv, DecimalN.Unsigned.to_of.
  assert (Decimal.nb_digits v = k) as Hlen.
  { unfold v. now rewrite nb_digits_rev, nb_digits_low_digits. }
  assert (v <> Decimal.Nil) as Hnil.
  { intros E. rewrite E in Hlen. cbn in Hlen. lia. }
  pose proof (nb_digits_unorm v Hnil). lia.
Qed.

Lemma digits_of_length (k : nat) (n : Z) :
  (0 < k)%nat -> 0 <= n < 10 ^ Z.of_nat k ->
  (String.length (digits_of n) <= k)%nat.
Proof.
  intros Hk Hn. unfold digits_of, NilZero.string_of_uint.
  pose proof (nb_digits_to_uint k (Z.to_N n) Hk) as H.
  assert (Z.to_N n < 10 ^ N.of_nat k)%N as Hlt.
  { apply N2Z.inj_lt. rewrite Z2N.id by lia.
    rewrite N2Z.inj_pow, nat_N_Z. cbn. lia. }
  specialize (H Hlt).
  destruct (N.to_uint (Z.to_N n)) eqn:E;
    try (rewrite string_of_uint_length; exact H).
  cbn. lia.
Qed.

Lemma zeros_length (k : nat) : String.length (zeros k) = k.
Proof. induction k; cbn; auto. Qed.

Lemma zeros_digits (k : nat) : all_digits (zeros k) = true.
Proof. induction k; cbn; auto. Qed.

(** The decimals of the text: as many digits as asked for. *)
Lemma fraction_text (n decimals : Z) :
  0 < decimals -> 0 <= n ->
  let frac := pad_zeros (Z.to_nat decimals) (digits_of (n mod 10 ^ decimals)) in
  String.length frac = Z.to_nat decimals /\ all_digits frac = true.
Proof.
  intros Hd Hn frac. unfold frac, pad_zeros.
  rewrite string_length_app, all_digits_app, zeros_length, zeros_digits,
    digits_of_all_digits.
  split; [|reflexivity].
  assert (String.length (digits_of (n mod 10 ^ decimals)) <= Z.to_nat decimals)%nat.
  { apply digits_of_length; [lia|]. rewrite Z2Nat.id by lia.
    apply Z.mod_pos_bound. apply Z.pow_pos_nonneg; lia. }
  lia.
Qed.

Lemma forallb_rev_digits (l : list ascii) :
  forallb is_digit l = true -> forallb is_digit (rev l) = true.
Proof.
  rewrite !forallb_forall. intros H c Hc. apply H. now apply in_rev.
Qed.

(** Counted from the least significant digit, and from [k] digits already
    in the group, the commas stand at every fourth place. *)
Lemma group_rev_positions (l : list ascii) (k j : nat) (c : ascii) :
  forallb is_digit l = true -> (k <= 3)%nat ->
  nth_error (group_rev l k) j = Some c ->
  if ((j + k) mod 4 =? 3)%nat then is_comma c = true else is_digit c = true.
Proof.
  revert k j. induction l as [|c0 rest IH]; intros k j Hd Hk Hnth.
  - destruct j; discriminate.
  - cbn in Hd. apply andb_true_iff in Hd as [Hc0 Hrest].
    destruct k as [|[|[|[|k]]]]; [| | | |lia]; cbn [group_rev] in Hnth.
    + destruct j as [|j]; [injection Hnth as <-; exact Hc0|].
      cbn in Hnth. specialize (IH 1%nat j Hrest ltac:(lia) Hnth).
      replace (S j + 0)%nat with (j + 1)%nat by lia. exact IH.
    + destruct j as [|j]; [injection Hnth as <-; exact Hc0|].
      cbn in Hnth. specialize (IH 2%nat j Hrest ltac:(lia) Hnth).
      replace (S j + 1)%nat with (j + 2)%nat by lia. exact IH.
    + destruct j as [|j]; [injection Hnth as <-; exact Hc0|].
      cbn in Hnth. specialize (IH 3%nat j Hrest ltac:(lia) Hnth).
      replace (S j + 2)%nat with (j + 3)%nat by lia. exact IH.
    + destruct j as [|[|j]].
      * injection Hnth as <-. reflexivity.
      * injection Hnth as <-. exact Hc0.
      * cbn in Hnth. specialize (IH 1%nat j Hrest ltac:(lia) Hnth).
        replace (S (S j) + 3)%nat with (j + 1 + 1 * 4)%nat by lia.
        rewrite Nat.Div0.mod_add. exact IH.
Qed.

(** The most significant character of a grouped number is a digit. *)
Lemma group_rev_last (l : list ascii) (k : nat) :
  forallb is_digit l = true -> l <> [] ->
  exists front c, group_rev l k = front ++ [c] /\ is_digit c = true.
Proof.
  revert k. induction l as [|c0 rest IH]; intros k Hd Hne; [congruence|].
  cbn in Hd. apply andb_true_iff in Hd as [Hc0 Hrest].
  destruct rest as [|c1 rest'].
  - destruct k as [|[|[|[|k]]]]; cbn;
      first [ exists [], c0; split; [reflexivity|exact Hc0]
            | exists [","%char], c0; split; [reflexivity|exact Hc0] ].
  - assert (forall k', exists front c,
              group_rev (c1 :: rest') k' = front ++ [c] /\ is_digit c = true) as H.
    { intros k'. apply IH; [exact Hrest|discriminate]. }
    remember (c1 :: rest') as r eqn:Er. clear Er IH.
    destruct k as [|[|[|[|k]]]]; cbn [group_rev].
    + destruct (H 1%nat) as (f & c & -> & Hc). now exists (c0 :: f), c.
    + destruct (H 2%nat) as (f & c & -> & Hc). now exists (c0 :: f), c.
    + destruct (H 3%nat) as (f & c & -> & Hc). now exists (c0 :: f), c.
    + destruct (H 1%nat) as (f & c & -> & Hc). now exists (","%char :: c0 :: f), c.
    + destruct (H (S (S (S (S (S k)))))) as (f & c & -> & Hc).
      now exists (c0 :: f), c.
Qed.

Lemma all_digits_list (s : string) :
  all_digits s = true -> forallb is_digit (list_ascii_of_string s) = true.
Proof. trivial. Qed.

(** The integer part of the text: groups of three digits from the right,
    a comma between two groups, a digit first. *)
Lemma thousands_shape (s : string) :
  all_digits s = true -> s <> "" ->
  (exists c rest, thousands s = String c rest /\ is_digit c = true) /\
  (forall j c,
     nth_error (rev (list_ascii_of_string (thousands s))) j = Some c ->
     if (j mod 4 =? 3)%nat then is_comma c = true else is_digit c = true).
Proof.
  intros Hd Hne. unfold thousands.
  assert (forallb is_digit (rev (list_ascii_of_string s)) = true) as Hrev.
  { apply forallb_rev_digits, Hd. }
  assert (rev (list_ascii_of_string s) <> []) as Hne'.
  { intros E. apply Hne. rewrite <- (string_of_list_ascii_of_string s).
    rewrite <- (rev_involutive (list_ascii_of_string s)), E. reflexivity. }
  split.
  - destruct (group_rev_last _ 0%nat Hrev Hne') as (f & c & -> & Hc).
    rewrite rev_app_distr. cbn. eauto.
  - intros j c. rewrite list_ascii_of_string_of_list_ascii, rev_involutive.
    intros Hnth.
    pose proof (group_rev_positions _ 0%nat j c Hrev ltac:(lia) Hnth) as H.
    now rewrite Nat.add_0_r in H.
Qed.

Lemma round_half_even_nonneg (n d : Z) : 0 <= n -> 0 < d -> 0 <= round_half_even n d.
Proof.
  intros Hn Hd. unfold round_half_even.
  pose proof (Z.div_pos n d Hn Hd).
  destruct (2 * (n mod d) ?= d); [destruct (Z.even (n / d))| |]; lia.
Qed.

Lemma scaled_digits_nonneg (m : positive) (e decimals : Z) :
  0 <= decimals -> 0 <= scaled_digits m e decimals.
Proof.
  intros Hd. unfold scaled_digits.
  destruct (0 <=? e) eqn:He.
  - apply Z.leb_le in He.
    pose proof (Z.pow_nonneg 2 e). pose proof (Z.pow_nonneg 10 decimals). nia.
  - apply Z.leb_gt in He. apply round_half_even_nonneg.
    + pose proof (Z.pow_nonneg 10 decimals). nia.
    + apply Z.pow_pos_nonneg; lia.
Qed.

(** X4: the text of a float that is a number, at a precision above 0: an
    optional minus sign, the integer part in groups of three digits
    separated by commas, a dot, and exactly [decimals] digits. *)
Theorem format_number_shape (x : float) (decimals : Z) :
  is_finite x = true ->
  0 < decimals <= INT_MAX ->
  exists sign int_part frac,
    format_number (PFloat x) decimals =
      Ok (sign +:+ int_part +:+ "." +:+ frac) /\
    (sign = "" \/ sign = "-") /\
    String.length frac = Z.to_nat decimals /\
    all_digits frac = true /\
    (exists c rest, int_part = String c rest /\ is_digit c = true) /\
    (forall j c,
       nth_error (rev (list_ascii_of_string int_part)) j = Some c ->
       if (j mod 4 =? 3)%nat then is_comma c = true else is_digit c = true).
Proof.
  intros Hfin [Hd Hmax].
  assert (forall s n, 0 <= n ->
    exists sign int_part frac,
      sign_text s +:+ fixed_text n decimals =
        sign +:+ int_part +:+ "." +:+ frac /\
      (sign = "" \/ sign = "-") /\
      String.length frac = Z.to_nat decimals /\
      all_digits frac = true /\
      (exists c rest, int_part = String c rest /\ is_digit c = true) /\
      (forall j c,
         nth_error (rev (list_ascii_of_string int_part)) j = Some c ->
         if (j mod 4 =? 3)%nat then is_comma c = true else is_digit c = true))
    as Hshape.
  { intros s n Hn. unfold fixed_text.
    assert ((decimals =? 0) = false) as -> by (apply Z.eqb_neq; lia).
    destruct (fraction_text n decimals Hd Hn) as [Hlen Hdig].
    destruct (thousands_shape (digits_of (n / 10 ^ decimals))
                (digits_of_all_digits _) (digits_of_nonempty _)) as [Hfirst Hpos].
    eexists (sign_text s), _, _. split; [reflexivity|].
    split; [destruct s; cbn; tauto|].
    split; [exact Hlen|]. split; [exact Hdig|]. split; [exact Hfirst|exact Hpos]. }
  unfold format_number.
  assert ((decimals <? 0) || (INT_MAX <? decimals) = false) as ->.
  { apply orb_false_iff. split; [apply Z.ltb_ge|apply Z.ltb_ge]; lia. }
  cbn [to_float result_bind]. unfold format_float, is_finite in *.
  destruct (Prim2SF x) as [s|s| |s m e]; try discriminate.
  - destruct (Hshape s 0 ltac:(lia)) as (sg & ip & fr & E & H). rewrite E. eauto.
  - destruct (Hshape s (scaled_digits m e decimals)
                (scaled_digits_nonneg m e decimals ltac:(lia)))
      as (sg & ip & fr & E & H).
    rewrite E. eauto.
Qed.

Lemma format_number_shape_witness :
  is_finite 1234567.891%float = true /\
  exists sign int_part frac,
    format_number (PFloat 1234567.891%float) 2 =
      Ok (sign +:+ int_part +:+ "." +:+ frac) /\
    (sign = "" \/ sign = "-") /\
    String.length frac = 2%nat.
Proof.
  split; [reflexivity|].
  destruct (format_number_shape 1234567.891%float 2 eq_refl)
    as (sign & int_part & frac & E & Hs & Hl & _).
  { unfold INT_MAX. lia. }
  exists sign, int_part, frac. split; [exact E|]. split; [exact Hs|exact Hl].
Defined.

(** ** The report file *)






Lemma string_app_assoc (a b c : string) : (a +:+ b) +:+ c = a +:+ (b +:+ c).
Proof.
  induction a as [|x a IH]; [reflexivity|].
  change (String x ((a +:+ b) +:+ c) = String x (a +:+ (b +:+ c))). now f_equal.
Qed.

(** The document of the report, line by line. *)
Lemma html_page_lines (text : string) :
  html_page text =
    String.concat nl
      [ "<!DOCTYPE html>";
        "<html>";
        "<head>";
        "    <title>CA</title>";
        "</head>";
        "<style>";
        "body { font-family: Arial; font-size: 0.3cm }";
        "</style>";
        "";
        "<body>";
        "    <h1>CA</h1>";
        "    <div id=" +:+ dq +:+ "currentMarketPrice" +:+ dq +:+
          " class=" +:+ dq +:+ "container" +:+ dq +:+ ">";
        "        <h2 class=" +:+ dq +:+ "title" +:+ dq +:+ ">Most Recent Value:</h2>";
        "        <h3 id=" +:+ dq +:+ "currentMarketPrice_value" +:+ dq +:+ ">" +:+
          text +:+ "</h3>";
        "    </div>";
        "</body>";
        "</html>" ].
Proof.
  unfold html_page. cbn [String.concat]. rewrite !string_app_assoc. reflexivity.
Qed.

(** X6: whenever [generate_html_report] returns, whatever the subscriptions:
    the output path holds the HTML document of the report, whose element
    currentMarketPrice_value reads the ratio formatted at 10 decimals,
    every other file is as it was, the directory of the path is made, no
    request is sent and one line is printed. *)
Theorem report_is_written (subs : list Subscription) (path : string)
    (w w' : world) :
  generate_html_report subs path w = (Ok tt, w') ->
  exists ratio text,
    report_ratio subs = Ok ratio /\
    format_number ratio 10 = Ok text /\
    files w' !! path =
      Some (String.concat nl
        [ "<!DOCTYPE html>";
          "<html>";
          "<head>";
          "    <title>CA</title>";
          "</head>";
          "<style>";
          "body { font-family: Arial; font-size: 0.3cm }";
          "</style>";
          "";
          "<body>";
          "    <h1>CA</h1>";
          "    <div id=" +:+ dq +:+ "currentMarketPrice" +:+ dq +:+
            " class=" +:+ dq +:+ "container" +:+ dq +:+ ">";
          "        <h2 class=" +:+ dq +:+ "title" +:+ dq +:+ ">Most Recent Value:</h2>";
          "        <h3 id=" +:+ dq +:+ "currentMarketPrice_value" +:+ dq +:+ ">" +:+
            text +:+ "</h3>";
          "    </div>";
          "</body>";
          "</html>" ]) /\
    (forall other, other <> path -> files w' !! other = files w !! other) /\
    dirs w' = {[ dirname path ]} ∪ dirs w /\
    sent w' = sent w /\
    console w' = console w ++ [Text ("Report generated: " +:+ path)].
Proof.
  intros Hrun.
  destruct (ratio_of_sums_formats (truthy_values total_value subs)
              (truthy_values acquisition_value subs)) as (ratio & f & Hr & Hf).
  pose proof (format_number_ok ratio 10 f Hf ltac:(unfold INT_MAX; lia)) as Hfmt.
  assert (String.eqb (dirname path) "" = false /\ String.eqb path "" = false /\
          ends_with_slash path = false /\ refuses w (dirname path) = None /\
          refuses w path = None)
    as (Hd & Hp & Hs & Hrd & Hrp).
  { unfold generate_html_report, bind, lift_result in Hrun.
    unfold total_current_value, total_invested_value in Hrun.
    rewrite Hr, Hfmt in Hrun. unfold makedirs, write_file in Hrun.
    destruct (String.eqb (dirname path) ""); [discriminate|].
    destruct (refuses w (dirname path)); [discriminate|].
    cbn in Hrun. destruct (String.eqb path ""); [discriminate|].
    destruct (ends_with_slash path); [discriminate|].
    destruct (refuses w path); [discriminate|]. repeat split. }
  rewrite (generate_html_report_run subs path ratio _ w Hr Hfmt Hd Hp Hs Hrd Hrp)
    in Hrun.
  injection Hrun as <-.
  exists ratio, (format_float f 10).
  split; [exact Hr|]. split; [exact Hfmt|].
  cbn [files dirs sent console].
  split; [rewrite <- html_page_lines; apply lookup_insert_eq|].
  split; [intros other Hne; now apply lookup_insert_ne|].
  repeat split; reflexivity.
Qed.

Lemma report_is_written_witness :
  exists w',
    generate_html_report [Scenario.fetched] "out/index.html" empty_world = (Ok tt, w') /\
    exists text,
      format_number (PFloat (PrimFloat.div 1000%float 900%float)) 10 = Ok text /\
      text = "1.1111111111" /\
      is_set (files w' !! "out/index.html") = true.
Proof.
  eexists. split; [vm_compute; reflexivity|].
  destruct (report_is_written [Scenario.fetched] "out/index.html" empty_world _
              eq_refl) as (ratio & text & Hr & Hf & Hfile & _).
  exists text.
  assert (ratio = PFloat (PrimFloat.div 1000%float 900%float)) as ->
    by (vm_compute in Hr; injection Hr as <-; reflexivity).
  split; [exact Hf|]. split; [vm_compute in Hf; now injection Hf as <-|].
  exact (f_equal is_set Hfile).
Defined.

(** X17: a path that ends with a slash names no file: when the directory
    is made, the writing raises [IsADirectoryError], after the directory
    was made and with nothing printed. *)
Theorem report_path_is_a_directory (subs : list Subscription) (path : string)
    (w : world) :
  ends_with_slash path = true ->
  String.eqb (dirname path) "" = false ->
  refuses w (dirname path) = None ->
  exists w',
    generate_html_report subs path w = (Raise IsADirectoryError, w') /\
    files w' = files w /\ console w' = console w /\
    dirs w' = {[ dirname path ]} ∪ dirs w.
Proof.
  intros Hs Hd Hrd.
  destruct (ratio_of_sums_formats (truthy_values total_value subs)
              (truthy_values acquisition_value subs)) as (ratio & f & Hr & Hf).
  pose proof (format_number_ok ratio 10 f Hf ltac:(unfold INT_MAX; lia)) as Hfmt.
  unfold generate_html_report, bind, lift_result.
  unfold total_current_value, total_invested_value. rewrite Hr, Hfmt.
  unfold makedirs, write_file. rewrite Hd, Hrd. cbn.
  assert (String.eqb path "" = false) as ->.
  { destruct path; [discriminate|reflexivity]. }
  rewrite Hs. eexists. split; [reflexivity|]. repeat split.
Qed.

Lemma report_path_is_a_directory_witness :
  ends_with_slash "out/" = true /\
  fst (generate_html_report [Scenario.fetched] "out/" empty_world) =
    Raise IsADirectoryError.
Proof.
  split; [reflexivity|].
  destruct (report_path_is_a_directory [Scenario.fetched] "out/" empty_world
              eq_refl eq_refl eq_refl) as (w' & -> & _).
  reflexivity.
Defined.

(** ** The loop of main: what every run keeps *)

Section LoopInvariants.
Context (srv : server) (today : datetime).

Lemma console_after_progress i n sub w :
  console (after_progress i n sub w) =
    console w ++ [Progress i n (AforroSeries.value (series sub))
                    (subscription_number sub)] /\
  sent (after_progress i n sub w) = sent w /\
  dirs (after_progress i n sub w) = dirs w /\
  files (after_progress i n sub w) = files w /\
  refuses (after_progress i n sub w) = refuses w.
Proof. repeat split. Qed.

(** The world after a call of [fetch_value]: one query more when the dates
    adjust, one line more when the answer fails, the files as before. *)
Lemma fetch_value_world series date acq q w :
  let out := fetch_value srv series date acq q w in
  sent (snd out) =
    sent w ++ match _adjust_dates date acq with
              | Ok (rd, ra) => [query_of series rd ra q]
              | Raise _ => []
              end /\
  files (snd out) = files w /\ dirs (snd out) = dirs w /\
  refuses (snd out) = refuses w /\
  (console (snd out) = console w \/
   exists e, console (snd out) =
               console w ++ [ErrorFetching (AforroSeries.value series) e]).
Proof.
  intros out. subst out.
  destruct (_adjust_dates date acq) as [[rd ra]|e] eqn:Hadj.
  - destruct (failure_of (srv (sent w) (query_of series rd ra q))) as [e|] eqn:Hf.
    + rewrite (fetch_value_raises srv series date acq q w rd ra e Hadj Hf).
      cbn. repeat split. right. eauto.
    + apply failure_of_none in Hf as (st & first & rest & Hans & Hst).
      rewrite (fetch_value_returns srv series date acq q w rd ra st first rest
                 Hadj Hans Hst).
      cbn. repeat split. now left.
  - rewrite (fetch_value_adjust_raises srv series date acq q w e Hadj).
    cbn. rewrite app_nil_r. repeat split. now left.
Qed.

Lemma set_fields_identity sub tv av uv :
  identity_of (set_total_value tv sub) = identity_of sub /\
  identity_of (set_acquisition_value av sub) = identity_of sub /\
  identity_of (set_unit_value uv sub) = identity_of sub.
Proof. repeat split. Qed.

(** One turn of the loop, whatever the subscription and the answer. *)
Lemma turn_effect i n sub w :
  let out := process_subscription srv today i n sub w in
  let sub' := snd (fst out) in
  identity_of sub' = identity_of sub /\
  sent (snd out) = sent w ++ queries_for today [sub] /\
  files (snd out) = files w /\ dirs (snd out) = dirs w /\
  refuses (snd out) = refuses w /\
  exists middle mark,
    console (snd out) =
      console w ++ Progress i n (AforroSeries.value (series sub))
                     (subscription_number sub) :: middle ++ [mark] /\
    (middle = [] \/ exists e, middle = [ErrorFetching (AforroSeries.value (series sub)) e]) /\
    ((is_check_mark mark = true /\ is_cross_mark mark = false /\
      fst (fst out) = Ok tt) \/
     (is_check_mark mark = false /\ is_cross_mark mark = true /\
      exists e, fst (fst out) = Raise e)).
Proof.
  intros out sub'. subst out sub'.
  pose proof (fetch_value_world (series sub) today (acquisition_date sub)
                (units sub) (after_progress i n sub w))
    as (Hsent & Hfiles & Hdirs & Hrefuses & Hcons).
  cbn zeta in Hsent, Hfiles, Hdirs, Hrefuses, Hcons.
  assert (queries_for today [sub] =
          match _adjust_dates today (acquisition_date sub) with
          | Ok (rd, ra) => [query_of (series sub) rd ra (units sub)]
          | Raise _ => []
          end) as Hq.
  { unfold queries_for. cbn. rewrite app_nil_r.
    destruct (_adjust_dates today (acquisition_date sub)) as [[? ?]|?]; reflexivity. }
  rewrite <- Hq in Hsent. clear Hq.
  assert (exists middle,
            console (snd (fetch_value srv (series sub) today (acquisition_date sub)
                            (units sub) (after_progress i n sub w))) =
              console w ++ Progress i n (AforroSeries.value (series sub))
                             (subscription_number sub) :: middle /\
            (middle = [] \/
             exists e, middle = [ErrorFetching (AforroSeries.value (series sub)) e]))
    as (middle & Hmid & Hmiddle).
  { destruct Hcons as [Hc|[e Hc]]; rewrite Hc; cbn [after_progress print snd console].
    - exists []. split; [reflexivity|now left].
    - exists [ErrorFetching (AforroSeries.value (series sub)) e].
      rewrite <- app_assoc. split; [reflexivity|right; eauto]. }
  clear Hcons.
  destruct (fetch_value srv (series sub) today (acquisition_date sub) (units sub)
              (after_progress i n sub w)) as [[answer|e] w1] eqn:Hrun;
    cbn [snd] in Hsent, Hfiles, Hdirs, Hrefuses, Hmid.
  - rewrite (process_subscription_fetched srv today i n sub w _ _ Hrun).
    assert (forall (r : result unit) s' mark,
              identity_of s' = identity_of sub ->
              (is_check_mark mark = true /\ is_cross_mark mark = false /\ r = Ok tt) \/
              (is_check_mark mark = false /\ is_cross_mark mark = true /\
               exists e, r = Raise e) ->
              let out := ((r, s'), snd (print mark w1)) in
              identity_of (snd (fst out)) = identity_of sub /\
              sent (snd out) = sent w ++ queries_for today [sub] /\
              files (snd out) = files w /\ dirs (snd out) = dirs w /\
              refuses (snd out) = refuses w /\
              exists middle mark,
                console (snd out) =
                  console w ++ Progress i n (AforroSeries.value (series sub))
                                 (subscription_number sub) :: middle ++ [mark] /\
                (middle = [] \/
                 exists e, middle = [ErrorFetching (AforroSeries.value (series sub)) e]) /\
                ((is_check_mark mark = true /\ is_cross_mark mark = false /\
                  fst (fst out) = Ok tt) \/
                 (is_check_mark mark = false /\ is_cross_mark mark = true /\
                  exists e, fst (fst out) = Raise e))) as Hpack.
    { intros r s' mark Hid Hmark. cbn.
      split; [exact Hid|]. split; [exact Hsent|].
      split; [exact Hfiles|]. split; [exact Hdirs|]. split; [exact Hrefuses|].
      exists middle, mark. rewrite Hmid, <- app_assoc. cbn.
      split; [reflexivity|]. split; [exact Hmiddle|exact Hmark]. }
    destruct (answer !! "field_value") as [tv|].
    2:{ apply Hpack; [reflexivity|right; repeat split; eauto]. }
    destruct (answer !! "field_acquisition_value") as [av|].
    2:{ apply Hpack; [reflexivity|right; repeat split; eauto]. }
    cbn zeta. destruct (0 <? units sub).
    + destruct (float_of_int (units sub)) as [u|e].
      * apply Hpack; [reflexivity|left; repeat split].
      * apply Hpack; [reflexivity|right; repeat split; eauto].
    + apply Hpack; [reflexivity|left; repeat split].
  - rewrite (process_subscription_raise srv today i n sub w _ _ Hrun). cbn.
    split; [reflexivity|]. split; [exact Hsent|].
    split; [exact Hfiles|]. split; [exact Hdirs|]. split; [exact Hrefuses|].
    exists middle, (CrossMark e). rewrite Hmid, <- app_assoc. cbn.
    split; [reflexivity|]. split; [exact Hmiddle|]. right. repeat split. eauto.
Qed.

Lemma fetch_loop_cons i n sub rest w :
  fetch_loop srv today i n (sub :: rest) w =
    (snd (fst (process_subscription srv today i n sub w)) ::
       fst (fetch_loop srv today (i + 1) n rest
              (snd (process_subscription srv today i n sub w))),
     snd (fetch_loop srv today (i + 1) n rest
            (snd (process_subscription srv today i n sub w)))).
Proof.
  cbn [fetch_loop].
  destruct (process_subscription srv today i n sub w) as [[r s'] w'].
  cbn [fst snd]. now destruct (fetch_loop srv today (i + 1) n rest w').
Qed.

Lemma queries_for_cons sub rest :
  queries_for today (sub :: rest) = queries_for today [sub] ++ queries_for today rest.
Proof. unfold queries_for. cbn. now rewrite app_nil_r. Qed.

Lemma count_lines_app p l1 l2 :
  count_lines p (l1 ++ l2) = (count_lines p l1 + count_lines p l2)%nat.
Proof. unfold count_lines. now rewrite List.filter_app, length_app. Qed.

(** The counts of the lines of one turn. *)
Lemma turn_counts i n sub w :
  let out := process_subscription srv today i n sub w in
  count_lines is_progress (console (snd out)) =
    S (count_lines is_progress (console w)) /\
  (count_lines is_check_mark (console (snd out)) +
   count_lines is_cross_mark (console (snd out)) =
     S (count_lines is_check_mark (console w) +
        count_lines is_cross_mark (console w)))%nat /\
  count_lines is_check_mark (console (snd out)) =
    (count_lines is_check_mark (console w) +
     (if is_ok (fst (fst out)) then 1 else 0))%nat.
Proof.
  intros out.
  destruct (turn_effect i n sub w)
    as (_ & _ & _ & _ & _ & middle & mark & Hc & Hmid & Hmark).
  fold out in Hc, Hmark. rewrite Hc.
  change (Progress i n (AforroSeries.value (series sub)) (subscription_number sub)
            :: middle ++ [mark])
    with ([Progress i n (AforroSeries.value (series sub)) (subscription_number sub)]
            ++ middle ++ [mark]).
  rewrite !count_lines_app.
  assert (count_lines is_progress middle = 0 /\
          count_lines is_check_mark middle = 0 /\
          count_lines is_cross_mark middle = 0)%nat as (M1 & M2 & M3).
  { destruct Hmid as [->|[e ->]]; repeat split. }
  rewrite M1, M2, M3.
  destruct Hmark as [(H1 & H2 & H3)|(H1 & H2 & e & H3)]; rewrite H3;
    destruct mark; try discriminate; cbn; lia.
Qed.

(** The loop, whatever the subscriptions and the world it starts in. *)
Lemma fetch_loop_effect subs i n w0 :
  map identity_of (fst (fetch_loop srv today i n subs w0)) = map identity_of subs /\
  files (snd (fetch_loop srv today i n subs w0)) = files w0 /\
  dirs (snd (fetch_loop srv today i n subs w0)) = dirs w0 /\
  refuses (snd (fetch_loop srv today i n subs w0)) = refuses w0 /\
  sent (snd (fetch_loop srv today i n subs w0)) = sent w0 ++ queries_for today subs.
Proof.
  revert i w0. induction subs as [|sub rest IH]; intros i w0.
  - cbn. rewrite app_nil_r. repeat split.
  - rewrite fetch_loop_cons. cbn [fst snd map].
    destruct (turn_effect i n sub w0) as (Hid & Hs & Hf & Hd & Hr & _).
    destruct (IH (i + 1) (snd (process_subscription srv today i n sub w0)))
      as (IH1 & IH3 & IH4 & IH6 & IH5).
    split; [now rewrite Hid, IH1|].
    split; [now rewrite IH3|]. split; [now rewrite IH4|]. split; [now rewrite IH6|].
    rewrite IH5, Hs, (queries_for_cons sub rest). now rewrite <- app_assoc.
Qed.

(** X8: the loop sends, whatever the answers, exactly the queries of the
    subscriptions whose dates adjust, one each and in their order: never
    a second query for a subscription, never more queries than
    subscriptions. *)
Theorem loop_sends_one_query_each (i n : Z) (subs : list Subscription) (w : world) :
  sent (snd (fetch_loop srv today i n subs w)) = sent w ++ queries_for today subs /\
  length (queries_for today subs) = length (List.filter (adjusts today) subs) /\
  (length (queries_for today subs) <= length subs)%nat.
Proof.
  split; [apply fetch_loop_effect|split].
  - induction subs as [|sub rest IH]; [reflexivity|].
    rewrite queries_for_cons, length_app, IH. cbn [List.filter].
    unfold queries_for at 1, adjusts at 2. cbn.
    destruct (_adjust_dates today (acquisition_date sub)) as [[? ?]|?]; reflexivity.
  - induction subs as [|sub rest IH]; [cbn; lia|].
    rewrite queries_for_cons, length_app. cbn [length].
    unfold queries_for at 1. cbn.
    destruct (_adjust_dates today (acquisition_date sub)) as [[? ?]|?]; cbn; lia.
Qed.

(** X9: the loop prints one progress line for each subscription and one mark
    for each, a check mark or a cross. *)
Theorem loop_prints_one_mark_each (i n : Z) (subs : list Subscription) (w : world) :
  let w' := snd (fetch_loop srv today i n subs w) in
  count_lines is_progress (console w') =
    (count_lines is_progress (console w) + length subs)%nat /\
  (count_lines is_check_mark (console w') + count_lines is_cross_mark (console w') =
     count_lines is_check_mark (console w) + count_lines is_cross_mark (console w) +
     length subs)%nat.
Proof.
  cbn zeta. revert i w. induction subs as [|sub rest IH]; intros i w.
  - cbn. lia.
  - rewrite fetch_loop_cons. cbn [snd length].
    destruct (IH (i + 1) (snd (process_subscription srv today i n sub w))) as [IH1 IH2].
    destruct (turn_counts i n sub w) as (T1 & T2 & _).
    cbn zeta in T1, T2. lia.
Qed.

End LoopInvariants.


(** *** The loop on answers of any JSON type *)

Section RawLoopInvariants.
Context (srv : raw_server) (today : datetime).

(** A call of [fetch_value] touches no file and no directory. *)
Lemma raw_fetch_value_world series date acq q w :
  let out := raw_fetch_value srv series date acq q w in
  files (snd out) = files w /\ dirs (snd out) = dirs w /\
  refuses (snd out) = refuses w.
Proof.
  intros out. subst out.
  destruct (_adjust_dates date acq) as [[rd ra]|e] eqn:Hadj.
  - destruct (raw_failure_of (srv (sent w) (query_of series rd ra q))) as [e|] eqn:Hf.
    + rewrite (raw_fetch_value_raises srv series date acq q w rd ra e Hadj Hf).
      repeat split.
    + apply raw_failure_of_none in Hf as (st & first & rest & Hans & Hst).
      rewrite (raw_fetch_value_returns srv series date acq q w rd ra st first rest
                 Hadj Hans Hst).
      repeat split.
  - rewrite (raw_fetch_value_adjust_raises srv series date acq q w e Hadj).
    repeat split.
Qed.

(** One turn of the loop, whatever the subscription and the answer: the
    subscription keeps what the configuration gave it. *)
Lemma raw_turn_effect i n sub w :
  let out := raw_process_subscription srv today i n sub w in
  raw_identity_of (snd (fst out)) = raw_identity_of sub /\
  files (snd out) = files w /\ dirs (snd out) = dirs w /\
  refuses (snd out) = refuses w.
Proof.
  intros out. subst out.
  pose proof (raw_fetch_value_world (raw_series sub) today (raw_acquisition_date sub)
                (raw_units sub) (raw_after_progress i n sub w)) as (Hfiles & Hdirs & Hrefuses).
  cbn zeta in Hfiles, Hdirs, Hrefuses.
  destruct (raw_fetch_value srv (raw_series sub) today (raw_acquisition_date sub)
              (raw_units sub) (raw_after_progress i n sub w)) as [[answer|e] w1] eqn:Hrun;
    cbn [snd] in Hfiles, Hdirs, Hrefuses.
  - rewrite (raw_process_subscription_fetched srv today i n sub w _ _ Hrun).
    destruct (py_getitem answer "field_value") as [tv|]; [|now repeat split].
    destruct (py_getitem answer "field_acquisition_value") as [av|];
      [|now repeat split].
    cbn zeta.
    destruct (if 0 <? raw_units sub then value_truediv tv (raw_units sub)
              else Ok (PInt 0)) as [uv|]; [|now repeat split].
    destruct (format_value tv 2); now repeat split.
  - rewrite (raw_process_subscription_raise srv today i n sub w _ _ Hrun).
    now repeat split.
Qed.

Lemma raw_fetch_loop_cons i n sub rest w :
  raw_fetch_loop srv today i n (sub :: rest) w =
    (snd (fst (raw_process_subscription srv today i n sub w)) ::
       fst (raw_fetch_loop srv today (i + 1) n rest
              (snd (raw_process_subscription srv today i n sub w))),
     snd (raw_fetch_loop srv today (i + 1) n rest
            (snd (raw_process_subscription srv today i n sub w)))).
Proof.
  cbn [raw_fetch_loop].
  destruct (raw_process_subscription srv today i n sub w) as [[r s'] w'].
  cbn [fst snd]. now destruct (raw_fetch_loop srv today (i + 1) n rest w').
Qed.

Lemma raw_fetch_loop_effect subs i n w0 :
  map raw_identity_of (fst (raw_fetch_loop srv today i n subs w0)) =
    map raw_identity_of subs /\
  files (snd (raw_fetch_loop srv today i n subs w0)) = files w0 /\
  dirs (snd (raw_fetch_loop srv today i n subs w0)) = dirs w0 /\
  refuses (snd (raw_fetch_loop srv today i n subs w0)) = refuses w0.
Proof.
  revert i w0. induction subs as [|sub rest IH]; intros i w0.
  - repeat split.
  - rewrite raw_fetch_loop_cons. cbn [fst snd map].
    destruct (raw_turn_effect i n sub w0) as (Hid & Hf & Hd & Hr).
    destruct (IH (i + 1) (snd (raw_process_subscription srv today i n sub w0)))
      as (IH1 & IH2 & IH3 & IH4).
    split; [now rewrite Hid, IH1|].
    split; [now rewrite IH2|]. split; [now rewrite IH3|now rewrite IH4].
Qed.

(** X7: the loop changes nothing of a subscription but its value fields,
    whatever the answers of the service and the values that they hold:
    after it the subscriptions are those of the configuration, one for
    one and in the same order, and the files and directories are as
    before. *)
Theorem loop_keeps_subscriptions (config : list config_item) (w : world) :
  let out := raw_fetch_loop srv today 1 (Z.of_nat (length (raw_load_subscriptions config)))
               (raw_load_subscriptions config) (at_loop_start w) in
  map raw_identity_of (fst out) =
    map (fun item => (item_series item, item_subscription_number item,
                      item_acquisition_date item, item_units item)) config /\
  length (fst out) = length config /\
  files (snd out) = files w /\
  dirs (snd out) = dirs w.
Proof.
  cbn zeta.
  destruct (raw_fetch_loop_effect (raw_load_subscriptions config) 1
              (Z.of_nat (length (raw_load_subscriptions config))) (at_loop_start w))
    as (H1 & H2 & H3 & _).
  assert (map raw_identity_of (raw_load_subscriptions config) =
          map (fun item => (item_series item, item_subscription_number item,
                            item_acquisition_date item, item_units item)) config) as Hcfg.
  { unfold raw_load_subscriptions. rewrite map_map. reflexivity. }
  split; [now rewrite H1|].
  split; [rewrite <- (length_map raw_identity_of), H1, Hcfg; apply length_map|].
  split; [exact H2|exact H3].
Qed.
End RawLoopInvariants.

(** *** Answers of floats: the typed loop is the loop *)

Section TypedLoop.
Context (srv : server) (today : datetime).

Lemma raw_fetch_value_of_server series date acq q w :
  raw_fetch_value (raw_of_server srv) series date acq q w =
    match fetch_value srv series date acq q w with
    | (Ok first, w') => (Ok (JDict (JFloat <$> first)), w')
    | (Raise e, w') => (Raise e, w')
    end.
Proof.
  destruct (_adjust_dates date acq) as [[rd ra]|e] eqn:Hadj.
  - destruct (failure_of (srv (sent w) (query_of series rd ra q))) as [e|] eqn:Hf.
    + rewrite (fetch_value_raises srv series date acq q w rd ra e Hadj Hf).
      apply (raw_fetch_value_raises _ series date acq q w rd ra e Hadj).
      unfold raw_of_server.
      destruct (srv (sent w) (query_of series rd ra q)) as [|st body];
        cbn in Hf |- *; [exact Hf|].
      destruct body as [[[|first rest]|]|]; cbn;
        destruct (status_is_error st); cbn; congruence.
    + apply failure_of_none in Hf as (st & first & rest & Hans & Hst).
      rewrite (fetch_value_returns srv series date acq q w rd ra st first rest
                 Hadj Hans Hst).
      apply (raw_fetch_value_returns _ series date acq q w rd ra st _
               (map (fun d : gmap string float => JDict (JFloat <$> d)) rest) Hadj);
        [|exact Hst].
      unfold raw_of_server. rewrite Hans. reflexivity.
  - rewrite (fetch_value_adjust_raises srv series date acq q w e Hadj).
    now apply raw_fetch_value_adjust_raises.
Qed.

Lemma py_getitem_floats (d : gmap string float) (key : string) :
  py_getitem (JDict (JFloat <$> d)) key =
    match dict_get d key with
    | Ok x => Ok (JFloat x)
    | Raise e => Raise e
    end.
Proof.
  unfold py_getitem, dict_get. rewrite lookup_fmap.
  now destruct (d !! key).
Qed.

(** One turn of the loop on an answer of floats. *)
Lemma typed_turn_is_raw_turn i n sub w :
  raw_process_subscription (raw_of_server srv) today i n (raw_of_sub sub) w =
    ((fst (fst (process_subscription srv today i n sub w)),
      raw_of_sub (snd (fst (process_subscription srv today i n sub w)))),
     snd (process_subscription srv today i n sub w)).
Proof.
  pose proof (raw_fetch_value_of_server (series sub) today (acquisition_date sub)
                (units sub) (after_progress i n sub w)) as Hraw.
  destruct (fetch_value srv (series sub) today (acquisition_date sub) (units sub)
              (after_progress i n sub w)) as [[first|e] w1] eqn:Hrun.
  - rewrite (process_subscription_fetched srv today i n sub w _ _ Hrun).
    rewrite (raw_process_subscription_fetched (raw_of_server srv) today i n
               (raw_of_sub sub) w _ _ Hraw).
    rewrite !py_getitem_floats. unfold dict_get.
    destruct (first !! "field_value") as [tv|]; [|reflexivity].
    destruct (first !! "field_acquisition_value") as [av|]; [|reflexivity].
    cbn zeta. cbn [raw_units raw_of_sub].
    destruct (Z.ltb_spec 0 (units sub)) as [Hpos|Hle].
    + unfold value_truediv, num_truediv, py_truediv. cbn [as_number to_float result_bind num_is_zero].
      assert ((units sub =? 0) = false) as -> by (apply Z.eqb_neq; lia).
      destruct (float_of_int (units sub)) as [u|e]; [|reflexivity].
      cbn [result_bind]. reflexivity.
    + reflexivity.
  - rewrite (process_subscription_raise srv today i n sub w _ _ Hrun).
    now rewrite (raw_process_subscription_raise (raw_of_server srv) today i n
                   (raw_of_sub sub) w _ _ Hraw).
Qed.

Lemma typed_loop_is_raw_loop subs i n w :
  raw_fetch_loop (raw_of_server srv) today i n (map raw_of_sub subs) w =
    (map raw_of_sub (fst (fetch_loop srv today i n subs w)),
     snd (fetch_loop srv today i n subs w)).
Proof.
  revert i w. induction subs as [|sub rest IH]; intros i w; [reflexivity|].
  cbn [map]. rewrite raw_fetch_loop_cons, fetch_loop_cons, typed_turn_is_raw_turn.
  cbn [fst snd map]. now rewrite IH.
Qed.
End TypedLoop.

(** ** The whole run *)

(** The run of [main] after its loop, once the texts are known, when the
    file system accepts the directory and the file. *)
Lemma main_run (srv : server) (config : list config_item) (today : datetime)
    (w : world) (subs' : list Subscription) (w1 : world) (ratio : pynum)
    (text s_current s_invested : string) :
  after_loop srv config today w = (subs', w1) ->
  report_ratio subs' = Ok ratio ->
  format_number ratio 10 = Ok text ->
  format_number (total_current subs') 2 = Ok s_current ->
  format_number (total_invested subs') 2 = Ok s_invested ->
  refuses w1 "out" = None ->
  refuses w1 "out/index.html" = None ->
  main srv config today w =
    (Ok tt,
     mk_world (sent w1)
       (console w1 ++
          [Text (nl +:+ "Generating HTML report...");
           Text "Report generated: out/index.html";
           Text (nl +:+ "Total current value: " +:+ s_current +:+ " EUR");
           Text ("Total invested value: " +:+ s_invested +:+ " EUR");
           Text ("Ratio (current/invested): " +:+ text)])
       ({[ "out" ]} ∪ dirs w1)
       (<[ "out/index.html" := html_page text ]> (files w1))
       (refuses w1)).
Proof.
  intros Hloop Hr Hf Hc Hi Hdir Hfile.
  unfold main. unfold bind at 1. cbn [print].
  unfold after_loop, at_loop_start in Hloop. cbn [print snd] in Hloop.
  unfold bind at 1. rewrite Hloop.
  unfold bind at 1. cbn [print].
  unfold bind at 1.
  erewrite generate_html_report_run;
    [|exact Hr|exact Hf|reflexivity|reflexivity|reflexivity|exact Hdir|exact Hfile].
  unfold report_ratio in Hr.
  change (total_current_value subs') with (total_current subs') in Hr.
  change (total_invested_value subs') with (total_invested subs') in Hr.
  unfold bind, lift_result. rewrite Hr, Hc, Hi, Hf. unfold print.
  cbn [sent console dirs files refuses]. rewrite <- !app_assoc. reflexivity.
Qed.

Lemma totals_format (subs : list Subscription) :
  exists s_current s_invested,
    format_number (total_current subs) 2 = Ok s_current /\
    format_number (total_invested subs) 2 = Ok s_invested.
Proof.
  unfold total_current, total_invested.
  eexists _, _. split;
    (apply format_number_ok; [apply to_float_py_sum|unfold INT_MAX; lia]).
Qed.

(** The loop of [main] leaves the file system as it was. *)
Lemma after_loop_refuses (srv : server) (config : list config_item)
    (today : datetime) (w : world) :
  refuses (snd (after_loop srv config today w)) = refuses w /\
  files (snd (after_loop srv config today w)) = files w /\
  dirs (snd (after_loop srv config today w)) = dirs w /\
  sent (snd (after_loop srv config today w)) =
    sent w ++ queries_for today (load_subscriptions config).
Proof.
  unfold after_loop.
  destruct (fetch_loop_effect srv today (load_subscriptions config) 1
              (Z.of_nat (length (load_subscriptions config))) (at_loop_start w))
    as (_ & Hfiles & Hdirs & Hrefuses & Hsent).
  repeat split; assumption.
Qed.

(** *** Answers of floats: the typed program is the program *)

Lemma typed_report_is_raw_report (subs : list Subscription) (path : string) (w : world) :
  raw_generate_html_report (map raw_of_sub subs) path w =
    generate_html_report subs path w.
Proof.
  unfold raw_generate_html_report, generate_html_report.
  destruct (raw_totals_of_subs subs) as [Hc Hi].
  unfold bind at 1. unfold lift_result at 1. rewrite Hc.
  unfold bind at 1. unfold lift_result at 1. rewrite Hi.
  unfold total_current_value, total_invested_value.
  rewrite raw_ratio_of_sums. reflexivity.
Qed.

Lemma bind_print {B} (l : line) (k : unit -> M world B) (w : world) :
  bind (print l) k w = k tt (snd (print l w)).
Proof. reflexivity. Qed.

Lemma bind_lift_ok {S A B} (a : A) (k : A -> M S B) (s : S) :
  bind (lift_result (Ok a)) k s = k a s.
Proof. reflexivity. Qed.

Lemma bind_run {S A B} (m : M S A) (k : A -> M S B) (s : S) (r : result A) (s' : S) :
  m s = (r, s') ->
  bind m k s = match r with Ok a => k a s' | Raise e => (Raise e, s') end.
Proof. intros H. unfold bind. now rewrite H. Qed.

(** On answers whose values are floats, the program run on the JSON
    documents does what the typed model does. *)
Lemma typed_main_is_raw_main (srv : server) (config : list config_item)
    (today : datetime) (w : world) :
  raw_main (raw_of_server srv) config today w = main srv config today w.
Proof.
  assert (raw_load_subscriptions config = map raw_of_sub (load_subscriptions config))
    as Hload.
  { unfold raw_load_subscriptions, load_subscriptions. rewrite map_map. reflexivity. }
  unfold raw_main, main. rewrite Hload, length_map.
  rewrite !bind_print.
  set (w0 := snd (print (Text "Fetching current values from IGCP API...") w)).
  destruct (fetch_loop srv today 1 (Z.of_nat (length (load_subscriptions config)))
              (load_subscriptions config) w0) as [subs' w1] eqn:Hloop.
  rewrite (bind_run _ _ w0 (Ok (map raw_of_sub subs')) w1)
    by (rewrite typed_loop_is_raw_loop, Hloop; reflexivity).
  rewrite (bind_run _ _ w0 (Ok subs') w1) by (rewrite Hloop; reflexivity).
  rewrite !bind_print.
  set (w2 := snd (print (Text (nl +:+ "Generating HTML report...")) w1)).
  destruct (generate_html_report subs' "out/index.html" w2) as [r w3] eqn:Hrep.
  rewrite (bind_run _ _ w2 r w3) by (rewrite typed_report_is_raw_report; exact Hrep).
  rewrite (bind_run _ _ w2 r w3) by exact Hrep.
  destruct r as [[]|e]; [|reflexivity].
  destruct (raw_totals_of_subs subs') as [Hc Hi].
  rewrite Hc, bind_lift_ok, Hi, bind_lift_ok.
  unfold total_current, total_invested, total_current_value, total_invested_value.
  rewrite raw_ratio_of_sums. reflexivity.
Qed.

(** X11: on answers whose values are floats, as [fetch_value] declares
    them, and with a file system that accepts the directory out and the
    file out/index.html, [main] never raises, whatever the configuration,
    the answers of the service and the date: it writes to out/index.html,
    and to no other file, the HTML document whose element
    currentMarketPrice_value reads the ratio of the subscriptions that
    the loop leaves, makes the directory out, sends the queries of the
    loop and no other, and the last line it prints shows the ratio with
    the text that the page has. *)
Theorem main_completes (srv : server) (config : list config_item)
    (today : datetime) (w : world) :
  refuses w "out" = None ->
  refuses w "out/index.html" = None ->
  exists ratio text w',
    raw_main (raw_of_server srv) config today w = (Ok tt, w') /\
    main srv config today w = (Ok tt, w') /\
    report_ratio (fst (after_loop srv config today w)) = Ok ratio /\
    format_number ratio 10 = Ok text /\
    files w' =
      <[ "out/index.html" :=
           String.concat nl
             [ "<!DOCTYPE html>";
               "<html>";
               "<head>";
               "    <title>CA</title>";
               "</head>";
               "<style>";
               "body { font-family: Arial; font-size: 0.3cm }";
               "</style>";
               "";
               "<body>";
               "    <h1>CA</h1>";
               "    <div id=" +:+ dq +:+ "currentMarketPrice" +:+ dq +:+
                 " class=" +:+ dq +:+ "container" +:+ dq +:+ ">";
               "        <h2 class=" +:+ dq +:+ "title" +:+ dq +:+
                 ">Most Recent Value:</h2>";
               "        <h3 id=" +:+ dq +:+ "currentMarketPrice_value" +:+ dq +:+ ">" +:+
                 text +:+ "</h3>";
               "    </div>";
               "</body>";
               "</html>" ] ]> (files w) /\
    dirs w' = {[ "out" ]} ∪ dirs w /\
    sent w' = sent w ++ queries_for today (load_subscriptions config) /\
    exists earlier,
      console w' = earlier ++ [Text ("Ratio (current/invested): " +:+ text)].
Proof.
  intros Hdir Hfile.
  destruct (after_loop_refuses srv config today w) as (Hrefuses & Hfiles & Hdirs & Hsent).
  destruct (after_loop srv config today w) as [subs' w1] eqn:Hloop.
  cbn [snd] in Hrefuses, Hfiles, Hdirs, Hsent.
  destruct (ratio_of_sums_formats (truthy_values total_value subs')
              (truthy_values acquisition_value subs')) as (ratio & f & Hr & Hf).
  pose proof (format_number_ok ratio 10 f Hf ltac:(unfold INT_MAX; lia)) as Hfmt.
  destruct (totals_format subs') as (sc & si & Hc & Hi).
  rewrite <- Hrefuses in Hdir, Hfile.
  pose proof (main_run srv config today w subs' w1 ratio _ sc si
                Hloop Hr Hfmt Hc Hi Hdir Hfile) as Hrun.
  exists ratio, (format_float f 10). eexists.
  split; [rewrite typed_main_is_raw_main; exact Hrun|].
  split; [exact Hrun|].
  cbn [fst files dirs sent console].
  split; [exact Hr|]. split; [exact Hfmt|].
  split; [now rewrite <- html_page_lines, Hfiles|]. split; [now rewrite Hdirs|].
  split; [exact Hsent|].
  exists (console w1 ++
            [Text (nl +:+ "Generating HTML report...");
             Text "Report generated: out/index.html";
             Text (nl +:+ "Total current value: " +:+ sc +:+ " EUR");
             Text ("Total invested value: " +:+ si +:+ " EUR")]).
  rewrite <- app_assoc. reflexivity.
Qed.

Lemma main_completes_witness :
  refuses empty_world "out" = None /\
  refuses empty_world "out/index.html" = None /\
  is_ok (fst (raw_main (raw_of_server (Scenario.answers Scenario.both_fields))
                [Scenario.item] Samples.today empty_world)) = true.
Proof.
  split; [reflexivity|]. split; [reflexivity|].
  destruct (main_completes (Scenario.answers Scenario.both_fields) [Scenario.item]
              Samples.today empty_world eq_refl eq_refl)
    as (ratio & text & w' & -> & _).
  reflexivity.
Defined.

(** A subscription without values adds nothing to the totals. *)
Lemma truthy_values_unset (field : Subscription -> option float)
    (subs : list Subscription) :
  Forall (fun sub => field sub = None) subs -> truthy_values field subs = [].
Proof.
  induction 1 as [|sub rest H _ IH]; [reflexivity|].
  unfold truthy_values in *. cbn. now rewrite H, IH.
Qed.

Lemma load_subscriptions_unset (config : list config_item) :
  Forall (fun sub => all_unset sub = true) (load_subscriptions config) /\
  Forall (fun sub => total_value sub = None) (load_subscriptions config) /\
  Forall (fun sub => acquisition_value sub = None) (load_subscriptions config).
Proof.
  unfold load_subscriptions.
  repeat split; apply Forall_map, Forall_forall; intros item _; reflexivity.
Qed.

(** When no answer of the service is accepted, the loop leaves the
    subscriptions as they were. *)
Lemma failing_loop_changes_nothing (srv : server) (today : datetime) :
  always_fails srv ->
  forall subs i n w, fst (fetch_loop srv today i n subs w) = subs.
Proof.
  intros Hfail. induction subs as [|sub rest IH]; intros i n w; [reflexivity|].
  rewrite fetch_loop_cons. cbn [fst]. rewrite IH. f_equal.
  destruct (_adjust_dates today (acquisition_date sub)) as [[rd ra]|e] eqn:Hadj.
  - destruct (failure_of (srv (sent (after_progress i n sub w))
                            (query_of (series sub) rd ra (units sub))))
      as [e|] eqn:Hf; [|now apply Hfail in Hf].
    pose proof (fetch_value_raises srv (series sub) today (acquisition_date sub)
                  (units sub) (after_progress i n sub w) rd ra e Hadj Hf) as Hrun.
    now rewrite (process_subscription_raise srv today i n sub w _ _ Hrun).
  - pose proof (fetch_value_adjust_raises srv (series sub) today
                  (acquisition_date sub) (units sub) (after_progress i n sub w)
                  e Hadj) as Hrun.
    now rewrite (process_subscription_raise srv today i n sub w _ _ Hrun).
Qed.

(** X12: when every fetch fails (no response, a status of failure, an answer
    that is not a non-empty list) and the file system accepts the
    directory out and the file out/index.html, [main] still ends without
    an exception: no subscription gets a value, both totals are 0, the
    element currentMarketPrice_value of the page written to
    out/index.html and the last line read 0.0000000000, whatever the
    configuration. *)
Theorem all_failed_run_reports_zero (srv : server) (config : list config_item)
    (today : datetime) (w : world) :
  always_fails srv ->
  refuses w "out" = None ->
  refuses w "out/index.html" = None ->
  fst (after_loop srv config today w) = load_subscriptions config /\
  total_current (fst (after_loop srv config today w)) = PInt 0 /\
  total_invested (fst (after_loop srv config today w)) = PInt 0 /\
  exists w',
    main srv config today w = (Ok tt, w') /\
    files w' !! "out/index.html" =
      Some (String.concat nl
        [ "<!DOCTYPE html>";
          "<html>";
          "<head>";
          "    <title>CA</title>";
          "</head>";
          "<style>";
          "body { font-family: Arial; font-size: 0.3cm }";
          "</style>";
          "";
          "<body>";
          "    <h1>CA</h1>";
          "    <div id=" +:+ dq +:+ "currentMarketPrice" +:+ dq +:+
            " class=" +:+ dq +:+ "container" +:+ dq +:+ ">";
          "        <h2 class=" +:+ dq +:+ "title" +:+ dq +:+ ">Most Recent Value:</h2>";
          "        <h3 id=" +:+ dq +:+ "currentMarketPrice_value" +:+ dq +:+
            ">0.0000000000</h3>";
          "    </div>";
          "</body>";
          "</html>" ]) /\
    exists earlier,
      console w' = earlier ++
        [Text (nl +:+ "Total current value: 0.00 EUR");
         Text "Total invested value: 0.00 EUR";
         Text "Ratio (current/invested): 0.0000000000"].
Proof.
  intros Hfail Hdir Hfile.
  destruct (after_loop_refuses srv config today w) as (Hrefuses & _).
  destruct (after_loop srv config today w) as [subs' w1] eqn:Hloop.
  cbn [snd] in Hrefuses. rewrite <- Hrefuses in Hdir, Hfile.
  assert (subs' = load_subscriptions config) as ->.
  { pose proof (failing_loop_changes_nothing srv today Hfail
                  (load_subscriptions config) 1
                  (Z.of_nat (length (load_subscriptions config)))
                  (at_loop_start w)) as H.
    fold (after_loop srv config today w) in H. now rewrite Hloop in H. }
  cbn [fst].
  destruct (load_subscriptions_unset config) as (_ & Ht & Ha).
  assert (total_current (load_subscriptions config) = PInt 0) as Hc.
  { unfold total_current. now rewrite (truthy_values_unset _ _ Ht). }
  assert (total_invested (load_subscriptions config) = PInt 0) as Hi.
  { unfold total_invested. now rewrite (truthy_values_unset _ _ Ha). }
  split; [reflexivity|]. split; [exact Hc|]. split; [exact Hi|].
  eexists. split.
  - apply (main_run srv config today w _ w1 (PInt 0) "0.0000000000" "0.00" "0.00"
             Hloop).
    + unfold report_ratio.
      change (total_current_value (load_subscriptions config))
        with (total_current (load_subscriptions config)).
      change (total_invested_value (load_subscriptions config))
        with (total_invested (load_subscriptions config)).
      rewrite Hc, Hi. reflexivity.
    + reflexivity.
    + rewrite Hc. reflexivity.
    + rewrite Hi. reflexivity.
    + exact Hdir.
    + exact Hfile.
  - cbn [files console]. split; [rewrite html_page_lines; apply lookup_insert_eq|].
    exists (console w1 ++ [Text (nl +:+ "Generating HTML report...");
                           Text "Report generated: out/index.html"]).
    rewrite <- app_assoc. reflexivity.
Qed.

Lemma all_failed_run_reports_zero_witness :
  always_fails (fun _ _ => NoResponse) /\
  refuses empty_world "out" = None /\
  refuses empty_world "out/index.html" = None /\
  fst (after_loop (fun _ _ => NoResponse) [Scenario.item] Samples.today empty_world) =
    load_subscriptions [Scenario.item].
Proof.
  assert (always_fails (fun _ _ => NoResponse)) as H.
  { intros history rq. cbn. discriminate. }
  split; [exact H|]. split; [reflexivity|]. split; [reflexivity|].
  apply (all_failed_run_reports_zero (fun _ _ => NoResponse) [Scenario.item]
           Samples.today empty_world H eq_refl eq_refl).
Defined.

(** Adding a float that is not a zero to 0.0 gives the float itself. *)
Lemma add_zero_l (x : float) :
  float_truthy x = true -> PrimFloat.add 0%float x = x.
Proof.
  intros Hx. apply Prim2SF_inj. rewrite add_spec, Prim2SF_zero.
  unfold SF64add.
  destruct (Prim2SF x) as [s|s| |s m e] eqn:E; try reflexivity.
  exfalso. unfold float_truthy in Hx. apply negb_true_iff in Hx.
  assert (PrimFloat.eqb x 0%float = true) as C; [|congruence].
  apply float_zero_iff. eauto.
Qed.

(** X13: with one subscription whose total value is not a zero and whose
    acquisition value is above 0, the total current value and the total
    invested value are those two values, without rounding, and the ratio is
    their float quotient. *)
Theorem single_subscription_ratio (sub : Subscription) (t a : float) :
  total_value sub = Some t ->
  acquisition_value sub = Some a ->
  float_truthy t = true ->
  PrimFloat.ltb 0%float a = true ->
  total_current_value [sub] = PFloat t /\
  total_invested_value [sub] = PFloat a /\
  report_ratio [sub] = Ok (PFloat (PrimFloat.div t a)).
Proof.
  intros Ht Ha Htruthy Hpos.
  assert (float_truthy a = true) as Hatruthy.
  { unfold float_truthy. now rewrite (positive_not_zero a Hpos). }
  assert (total_current_value [sub] = PFloat t) as Hc.
  { unfold total_current_value, truthy_values. cbn. rewrite Ht, Htruthy. cbn.
    unfold py_sum. cbn. f_equal. now apply add_zero_l. }
  assert (total_invested_value [sub] = PFloat a) as Hi.
  { unfold total_invested_value, truthy_values. cbn. rewrite Ha, Hatruthy. cbn.
    unfold py_sum. cbn. f_equal. now apply add_zero_l. }
  split; [exact Hc|]. split; [exact Hi|].
  unfold report_ratio, ratio_of. rewrite Hc, Hi. cbn [py_gt0]. rewrite Hpos.
  unfold py_truediv. cbn [to_float result_bind num_is_zero].
  now rewrite (positive_not_zero a Hpos).
Qed.

Lemma single_subscription_ratio_witness :
  total_value Scenario.fetched = Some 1000%float /\
  report_ratio [Scenario.fetched] =
    Ok (PFloat (PrimFloat.div 1000%float 900%float)).
Proof.
  split; [reflexivity|].
  apply (single_subscription_ratio Scenario.fetched 1000%float 900%float);
    reflexivity.
Defined.

(** ** The query and the totals *)

Lemma pad_zeros_exact (k : nat) (s : string) :
  (String.length s <= k)%nat -> all_digits s = true ->
  String.length (pad_zeros k s) = k /\ all_digits (pad_zeros k s) = true.
Proof.
  intros Hlen Hd. unfold pad_zeros.
  rewrite string_length_app, all_digits_app, zeros_length, zeros_digits, Hd.
  split; [lia|reflexivity].
Qed.

Lemma strftime_first_of_month (y m : Z) :
  strftime_dmY (first_of_month y m) =
    "01/" +:+ pad_zeros 2 (digits_of m) +:+ "/" +:+ digits_of y.
Proof. reflexivity. Qed.

(** A year from 1000 to 9999 is written with four digits. *)
Lemma year_text_length (y : Z) :
  1000 <= y <= 9999 -> String.length (digits_of y) = 4%nat.
Proof.
  intros Hy.
  assert (forallb (fun k => Nat.eqb (String.length (digits_of (1000 + Z.of_nat k))) 4)
            (seq 0 (Z.to_nat 9000)) = true) as Hall by (vm_compute; reflexivity).
  rewrite forallb_forall in Hall.
  specialize (Hall (Z.to_nat (y - 1000))).
  rewrite Z2Nat.id in Hall by lia.
  replace (1000 + (y - 1000)) with y in Hall by lia.
  apply Nat.eqb_eq, Hall, in_seq. lia.
Qed.

Lemma first_of_month_text (y m : Z) :
  1000 <= y <= MAXYEAR -> 1 <= m <= 12 ->
  first_day_text (strftime_dmY (first_of_month y m)).
Proof.
  intros Hy Hm. rewrite strftime_first_of_month.
  destruct (pad_zeros_exact 2 (digits_of m)) as [L2 D2];
    [apply digits_of_length; [lia|cbn; lia]|apply digits_of_all_digits|].
  exists (pad_zeros 2 (digits_of m)), (digits_of y).
  repeat split; try assumption.
  - apply year_text_length. unfold MAXYEAR in Hy. lia.
  - apply digits_of_all_digits.
Qed.

(** X14: for dates of years of four digits, the query of a subscription goes to
    the simulator address with the letter of the series and, as its two
    dates, texts of the form 01/MM/YYYY: day 01, a month of two digits, a
    year of four. *)
Theorem query_dates_are_first_days (series : AforroSeries.t)
    (today acq req_date req_acq : datetime) (q : Z) :
  datetime_ok today = true ->
  datetime_ok acq = true ->
  1000 < year today ->
  1000 <= year acq ->
  _adjust_dates today acq = Ok (req_date, req_acq) ->
  first_day_text (field_field_date (query_of series req_date req_acq q)) /\
  first_day_text (field_field_acquisition_date (query_of series req_date req_acq q)) /\
  field_serie (query_of series req_date req_acq q) = AforroSeries.value series /\
  url (query_of series req_date req_acq q) =
    "https://www.igcp.pt/pt/api/simulator-value/query".
Proof.
  intros Ht Ha Hy Hy' Hadj.
  pose proof (datetime_ok_ranges _ Ht) as (Hyr & Hm & _).
  pose proof (datetime_ok_ranges _ Ha) as (Hyr' & Hm' & _).
  destruct (adjust_dates_cases today acq Ht Ha) as [[_ Hr]|[_ Hs]]; [congruence|].
  unfold adjusts_as_specified in Hs. rewrite Hs in Hadj. injection Hadj as <- <-.
  cbn [query_of field_field_date field_field_acquisition_date field_serie url].
  split; [|split; [|split; reflexivity]].
  - unfold spec_value_request, previous_month_start.
    destruct (day today <? day acq); [destruct (Z.eqb_spec (month today) 1)|];
      apply first_of_month_text; lia.
  - apply first_of_month_text; lia.
Qed.

Lemma query_dates_are_first_days_witness :
  _adjust_dates Samples.today Samples.acquired =
    Ok (mk_datetime 2024 2 1 0 0 0 0, mk_datetime 2020 5 1 0 0 0 0) /\
  field_field_date
    (query_of AforroSeries.E (mk_datetime 2024 2 1 0 0 0 0)
       (mk_datetime 2020 5 1 0 0 0 0) 100) = "01/02/2024" /\
  first_day_text "01/02/2024".
Proof.
  split; [reflexivity|]. split; [reflexivity|].
  apply (query_dates_are_first_days AforroSeries.E Samples.today Samples.acquired
           (mk_datetime 2024 2 1 0 0 0 0) (mk_datetime 2020 5 1 0 0 0 0) 100);
    try reflexivity; cbn; lia.
Defined.


(** ** Not a number *)











(** ** Answers of any JSON type *)

(** X18: once the dates are adjusted, [fetch_value] calls [session.get]
    once, whatever the answer, and raises if and only if there is no
    response (error or timeout), the status is from 400 to 599, the body
    is not JSON, or the document is not a non-empty list; the first item
    of such a list is returned as it is, of whatever type, with nothing
    printed. Every failure is printed with the letter of the series and
    raised again. When the date adjustment raises, the exception reaches
    the caller before any call. *)
Theorem fetch_value_failures (srv : raw_server) series date acq q w rd ra :
  _adjust_dates date acq = Ok (rd, ra) ->
  let rq := query_of series rd ra q in
  let answer := srv (sent w) rq in
  let out := raw_fetch_value srv series date acq q w in
  sent (snd out) = sent w ++ [rq] /\
  (is_ok (fst out) = false <->
     answer = RawNoResponse \/
     exists st body, answer = RawResponse st body /\
       (400 <= st < 600 \/ body = RawNotJson \/
        exists data, body = RawJson data /\
          forall first rest, data <> JList (first :: rest))) /\
  (forall e, fst out = Raise e ->
     raw_failure_of answer = Some e /\
     console (snd out) = console w ++ [ErrorFetching (AforroSeries.value series) e]) /\
  (forall first, fst out = Ok first ->
     (exists st rest, answer = RawResponse st (RawJson (JList (first :: rest)))) /\
     console (snd out) = console w) /\
  (forall date' acq' e,
     _adjust_dates date' acq' = Raise e ->
     raw_fetch_value srv series date' acq' q w = (Raise e, w)).
Proof.
  intros Hadj rq answer out.
  assert (forall date' acq' e,
     _adjust_dates date' acq' = Raise e ->
     raw_fetch_value srv series date' acq' q w = (Raise e, w)) as Hraise.
  { intros; now apply raw_fetch_value_adjust_raises. }
  destruct (raw_failure_of answer) as [e|] eqn:Hf.
  - pose proof (raw_fetch_value_raises srv series date acq q w rd ra e Hadj Hf) as Hrun.
    fold rq in Hrun. fold out in Hrun. rewrite Hrun. cbn [fst snd].
    split; [reflexivity|]. split; [|split; [|split]].
    + split; [intros _|reflexivity].
      destruct answer as [|st body]; [now left|right].
      exists st, body. split; [reflexivity|]. cbn in Hf.
      destruct (status_is_error st) eqn:Hst.
      * left. unfold status_is_error in Hst.
        apply andb_true_iff in Hst as [H1 H2]. lia.
      * right. destruct body as [data|]; [right|now left].
        exists data. split; [reflexivity|]. intros first rest ->. discriminate.
    + intros e' [= <-]. split; reflexivity.
    + intros first [=].
    + exact Hraise.
  - apply raw_failure_of_none in Hf as (st & first & rest & Hans & Hst).
    pose proof (raw_fetch_value_returns srv series date acq q w rd ra st first rest
                  Hadj Hans Hst) as Hrun.
    fold rq in Hrun. fold out in Hrun. rewrite Hrun. cbn [fst snd].
    fold rq in Hans. fold answer in Hans.
    split; [reflexivity|]. split; [|split; [|split]].
    + split; [discriminate|]. rewrite Hans.
      intros [H|(st' & body & [= <- <-] & H)]; [discriminate|].
      unfold status_is_error in Hst. apply andb_false_iff in Hst.
      destruct H as [H|[H|(data & [= <-] & H)]]; [lia|discriminate|].
      now destruct (H first rest).
    + intros e [=].
    + intros first' [= <-]. split; [eauto|reflexivity].
    + exact Hraise.
Qed.

Lemma fetch_value_failures_witness :
  _adjust_dates Samples.today Samples.acquired =
    Ok (mk_datetime 2024 2 1 0 0 0 0, mk_datetime 2020 5 1 0 0 0 0) /\
  sent (snd (raw_fetch_value (fun _ _ => RawNoResponse) AforroSeries.E
               Samples.today Samples.acquired 100 empty_world)) =
    [mk_request "https://www.igcp.pt/pt/api/simulator-value/query" "E"
       "01/02/2024" "01/05/2020" "100"].
Proof.
  split; [reflexivity|].
  apply (fetch_value_failures (fun _ _ => RawNoResponse) AforroSeries.E
           Samples.today Samples.acquired 100 empty_world
           (mk_datetime 2024 2 1 0 0 0 0) (mk_datetime 2020 5 1 0 0 0 0)).
  reflexivity.
Defined.

(** A sum returns only on numbers. *)
Lemma sum_from_returns (vs : list json) (acc total : pynum) :
  sum_from acc vs = Ok total -> Forall (fun v => is_set (as_number v) = true) vs.
Proof.
  revert acc. induction vs as [|v rest IH]; intros acc; cbn; [constructor|].
  unfold py_add. destruct (as_number v) as [x|] eqn:Hv; [|discriminate].
  destruct (num_add acc x) as [acc'|]; cbn; [|discriminate].
  intros H. constructor; [now rewrite Hv|]. eapply IH; eauto.
Qed.

Lemma raw_truthy_values_in (field : RawSubscription -> json)
    (subs : list RawSubscription) (sub : RawSubscription) :
  In sub subs -> py_bool (field sub) = true ->
  In (field sub) (raw_truthy_values field subs).
Proof.
  intros Hin Ht. unfold raw_truthy_values.
  apply List.filter_In. split; [|exact Ht]. now apply in_map.
Qed.

(** X19: a subscription whose total value is of another type than a
    number, and not an empty one, stops the report: the sum of the
    total values raises [TypeError], or [OverflowError] on an [int]
    beyond the floats before it, and [generate_html_report] raises it
    too before it makes a directory, writes a file or prints a line. *)
Theorem value_of_another_type_stops_report (subs : list RawSubscription)
    (sub : RawSubscription) (path : string) (w : world) :
  In sub subs ->
  py_bool (raw_total_value sub) = true ->
  as_number (raw_total_value sub) = None ->
  exists e,
    (e = TypeError \/ e = OverflowError) /\
    raw_total_current_value subs = Raise e /\
    raw_report_ratio subs = Raise e /\
    raw_generate_html_report subs path w = (Raise e, w).
Proof.
  intros Hin Ht Hnum.
  destruct (raw_total_current_value subs) as [total|e] eqn:Hsum.
  - exfalso. apply sum_from_returns in Hsum.
    rewrite List.Forall_forall in Hsum.
    specialize (Hsum _ (raw_truthy_values_in raw_total_value subs sub Hin Ht)).
    rewrite Hnum in Hsum. discriminate.
  - exists e. split; [exact (sum_from_raises _ _ _ Hsum)|].
    split; [reflexivity|].
    split; [unfold raw_report_ratio; now rewrite Hsum|].
    unfold raw_generate_html_report, bind, lift_result. now rewrite Hsum.
Qed.

Lemma value_of_another_type_stops_report_witness :
  raw_fetch_loop (RawScenario.answers (JDict {[ "field_value" := JStr "1000" ]}))
    Samples.today 1 1 [RawScenario.untouched] empty_world =
    ([mk_RawSubscription AforroSeries.E "123" Samples.acquired 100
        JNull (JStr "1000") JNull],
     mk_world
       [mk_request "https://www.igcp.pt/pt/api/simulator-value/query" "E"
          "01/02/2024" "01/05/2020" "100"]
       [Progress 1 1 "E" "123"; CrossMark (KeyError "field_acquisition_value")] ∅ ∅
       (fun _ => None)) /\
  fst (raw_main (RawScenario.answers (JDict {[ "field_value" := JStr "1000" ]}))
         [Scenario.item] Samples.today empty_world) = Raise TypeError /\
  exists e,
    raw_generate_html_report
      [mk_RawSubscription AforroSeries.E "123" Samples.acquired 100
         JNull (JStr "1000") JNull] "out/index.html" empty_world =
      (Raise e, empty_world).
Proof.
  split; [vm_compute; reflexivity|]. split; [vm_compute; reflexivity|].
  destruct (value_of_another_type_stops_report
              [mk_RawSubscription AforroSeries.E "123" Samples.acquired 100
                 JNull (JStr "1000") JNull]
              (mk_RawSubscription AforroSeries.E "123" Samples.acquired 100
                 JNull (JStr "1000") JNull)
              "out/index.html" empty_world
              (or_introl eq_refl) eq_refl eq_refl) as (e & _ & _ & _ & H).
  exists e. exact H.
Defined.
